(** * Saving and loading model checkpoints

    A shallow embedding of the checkpoint code of the notebook
    "Part 6 - Saving and Loading Models": the cell that builds the
    [checkpoint] dictionary and hands it to [torch.save], and the function
    [load_checkpoint] that reads it back, rebuilds the network and loads the
    parameters into it.

    Python objects live in an explicit store: model instances are mutable and
    are referred to by location, files hold the objects written by
    [torch.save].  Exceptions leave the store as it is at the point of the
    [raise], as in Python. *)

From stdpp Require Import gmap strings list fin_maps pretty.
From Stdlib Require Import ZArith Lia.

Local Open Scope Z_scope.
Local Open Scope string_scope.

(** ** Data *)

(** A tensor: its [torch.Size] and its elements in row-major order.  The
    elements are kept as the bit patterns of the stored floats; no arithmetic
    is done on them here, they are only allocated, copied and compared. *)
Record Tensor := mkTensor { shape : list Z; data : list Z }.

#[global] Instance Tensor_eq_dec : EqDecision Tensor.
Proof. solve_decision. Defined.

(** [collections.OrderedDict] from parameter key to tensor, as returned by
    [model.state_dict()]: insertion order is part of the value. *)
Abbreviation OrderedDict := (list (string * Tensor)).

(** The Python values that occur in the notebook's checkpoint code. *)
#[warnings="-register-all"]
Inductive PyVal :=
| PyInt (n : Z)
| PyList (l : list Z)
| PyTensor (t : Tensor)
| PyOrderedDict (sd : OrderedDict)
| PyDict (d : gmap string PyVal).

(** [nn.Linear(in_features, out_features)], as printed by the notebook:
    [Linear(in_features=784, out_features=512, bias=True)]. *)
Record Linear := mkLinear {
  in_features : Z;
  out_features : Z;
  weight : Tensor;
  bias : Tensor
}.

(** A [fc_model.Network] instance, as printed by the notebook:
    a [ModuleList] named [hidden_layers] and a [Linear] named [output].  The
    [Dropout] module it also carries has no parameters and no entry in the
    state dict; it is left out. *)
Record Network := mkNetwork {
  hidden_layers : list Linear;
  output : Linear
}.

(** One entry of the message list of the [RuntimeError] raised by
    [load_state_dict] (notebook cell 11: "size mismatch for
    hidden_layers.0.weight: copying a param with shape torch.Size([512, 784])
    from checkpoint, the shape in current model is torch.Size([400, 784])"). *)
Inductive LoadError :=
| SizeMismatch (key : string) (checkpoint_shape model_shape : list Z)
| MissingKey (key : string)
| UnexpectedKey (key : string).

Inductive Exn :=
| KeyError (key : string)
| TypeError
| FileNotFoundError (filepath : string)
| RuntimeError (error_msgs : list LoadError).

(** ** The store and the monad of Python statements *)

Abbreviation loc := positive.

Record World := mkWorld {
  heap : gmap loc Network;   (* live model instances *)
  fs : gmap string PyVal     (* files written by torch.save *)
}.

Inductive Outcome (A : Type) :=
| Ok (a : A)
| Raise (e : Exn).
Arguments Ok {A} a.
Arguments Raise {A} e.

Definition M (A : Type) : Type := World → Outcome A * World.

Definition ret {A} (a : A) : M A := λ w, (Ok a, w).
Definition raise {A} (e : Exn) : M A := λ w, (Raise e, w).
Definition bind {A B} (m : M A) (k : A → M B) : M B :=
  λ w, match m w with
       | (Ok a, w') => k a w'
       | (Raise e, w') => (Raise e, w')
       end.

Declare Scope py_scope.
Delimit Scope py_scope with py.
Notation "x <- m ;; k" := (bind m (λ x, k))
  (at level 100, m at next level, right associativity) : py_scope.
Notation "m ;;; k" := (bind m (λ _, k))
  (at level 100, right associativity) : py_scope.
Local Open Scope py_scope.

(** ** Dictionary access and dynamic type tests *)

Fixpoint sd_lookup (key : string) (sd : OrderedDict) : option Tensor :=
  match sd with
  | [] => None
  | (k, t) :: rest => if decide (k = key) then Some t else sd_lookup key rest
  end.

(** [obj[key]] *)
Definition getitem (obj : PyVal) (key : string) : M PyVal :=
  match obj with
  | PyDict d =>
      match d !! key with
      | Some v => ret v
      | None => raise (KeyError key)
      end
  | PyOrderedDict sd =>
      match sd_lookup key sd with
      | Some t => ret (PyTensor t)
      | None => raise (KeyError key)
      end
  | _ => raise TypeError
  end.

Definition as_int (v : PyVal) : M Z :=
  match v with PyInt n => ret n | _ => raise TypeError end.

Definition as_list (v : PyVal) : M (list Z) :=
  match v with PyList l => ret l | _ => raise TypeError end.

Definition as_state_dict (v : PyVal) : M OrderedDict :=
  match v with PyOrderedDict sd => ret sd | _ => raise TypeError end.

(** ** Parameters of a network *)

Definition Linear_state_dict (prefix : string) (lin : Linear) : OrderedDict :=
  [(prefix +:+ "weight", weight lin); (prefix +:+ "bias", bias lin)].

Definition hidden_prefix (i : nat) : string :=
  "hidden_layers." +:+ pretty i +:+ ".".

Fixpoint hidden_state_dict (i : nat) (layers : list Linear) : OrderedDict :=
  match layers with
  | [] => []
  | lin :: rest =>
      Linear_state_dict (hidden_prefix i) lin ++ hidden_state_dict (S i) rest
  end.

(** [model.state_dict()]: the keys are those the notebook prints,
    [hidden_layers.0.weight], [hidden_layers.0.bias], ..., [output.weight],
    [output.bias], in this order.  The notebook hands the dictionary to
    [torch.save] at once, so it is taken by value here. *)
Definition state_dict (net : Network) : OrderedDict :=
  hidden_state_dict 0 (hidden_layers net) ++ Linear_state_dict "output." (output net).

(** ** The collaborators and the notebook code *)

Section Checkpoint.

(** Initial contents of a freshly allocated parameter of a given shape
    ([nn.Linear] draws them at random); nothing below depends on them. *)
Variable init : list Z → list Z.

(** What a model instance holds after [load_state_dict] has raised.  The
    routine belongs to the tensor library and its body is not part of the
    notebook, whose run only shows the raise; the contents are therefore
    left open, and everything proved below holds whatever they are. *)
Variable failed_load : Network → OrderedDict → Network.

(** *** Model construction *)

(** [nn.Linear(in_features, out_features)]: the weight has shape
    [[out_features, in_features]] and the bias [[out_features]], the shapes
    that the error message of cell 11 reports. *)
Definition nn_Linear (in_features out_features : Z) : Linear :=
  {| in_features := in_features;
     out_features := out_features;
     weight := mkTensor [out_features; in_features] (init [out_features; in_features]);
     bias := mkTensor [out_features] (init [out_features]) |}.

Fixpoint hidden_stack (previous : Z) (widths : list Z) : list Linear :=
  match widths with
  | [] => []
  | h :: rest => nn_Linear previous h :: hidden_stack h rest
  end.

(** Modelled from the spec: the module [fc_model], which defines [Network],
    is not among the sources.  The constructor takes
    [(input_size, output_size, hidden_layers)]; layer [i] maps the previous
    layer's output width (the input dimensionality for layer 0) to its own
    width, and the output layer maps the last width to [output_size]; with no
    hidden layer the network maps input to output directly.  For the
    architecture of the notebook this gives the layers the notebook prints.
    Sizes are taken as given: the spec leaves non-positive ones open. *)
Definition Network_new (input_size output_size : Z) (hidden_layers : list Z) : Network :=
  {| hidden_layers := hidden_stack input_size hidden_layers;
     output := nn_Linear (List.last hidden_layers input_size) output_size |}.

(** Creating an object binds it to a location not in use. *)
Definition alloc (net : Network) : M loc :=
  λ w, let l := fresh (dom (heap w)) in
       (Ok l, mkWorld (<[l := net]> (heap w)) (fs w)).

(** Reading the object behind a reference; references come from [alloc]
    only and never dangle, the second case is there for totality. *)
Definition deref (l : loc) : M Network :=
  λ w, match heap w !! l with
       | Some net => (Ok net, w)
       | None => (Raise TypeError, w)
       end.

(** [fc_model.Network(input_size, output_size, hidden_layers)] *)
Definition fc_model_Network (input_size output_size : Z) (hidden_layers : list Z) : M loc :=
  alloc (Network_new input_size output_size hidden_layers).

(** *** Serialization facility *)

(** Modelled from the spec: [torch.save] and [torch.load] are the generic
    object-serialization facility, [save(object, sink)] and
    [load(source) -> object] for arbitrary nested mappings of arrays.  The
    file layout is logical, not bit-level: a file holds the object that was
    saved to it. *)
Definition torch_save (obj : PyVal) (filepath : string) : M unit :=
  λ w, (Ok (), mkWorld (heap w) (<[filepath := obj]> (fs w))).

(** Modelled from the spec: [torch.load], the reading half of the same
    facility; a path that was never written raises. *)
Definition torch_load (filepath : string) : M PyVal :=
  λ w, match fs w !! filepath with
       | Some obj => (Ok obj, w)
       | None => (Raise (FileNotFoundError filepath), w)
       end.

(** *** Parameter loading *)

Definition check_param (sd : OrderedDict) (entry : string * Tensor) : list LoadError :=
  let '(key, param) := entry in
  match sd_lookup key sd with
  | Some input_param =>
      if decide (shape input_param = shape param) then []
      else [SizeMismatch key (shape input_param) (shape param)]
  | None => [MissingKey key]
  end.

Definition unexpected_keys (sd : OrderedDict) (net : Network) : list LoadError :=
  UnexpectedKey <$> filter (λ k, k ∉ (state_dict net).*1) (sd.*1).

Definition load_errors (sd : OrderedDict) (net : Network) : list LoadError :=
  (state_dict net ≫= check_param sd) ++ unexpected_keys sd net.

(** [param.copy_(input_param)]: the data is overwritten in place. *)
Definition copy_ (key : string) (sd : OrderedDict) (param : Tensor) : Tensor :=
  match sd_lookup key sd with
  | Some input_param => mkTensor (shape param) (data input_param)
  | None => param
  end.

Definition Linear_load (prefix : string) (sd : OrderedDict) (lin : Linear) : Linear :=
  {| in_features := in_features lin;
     out_features := out_features lin;
     weight := copy_ (prefix +:+ "weight") sd (weight lin);
     bias := copy_ (prefix +:+ "bias") sd (bias lin) |}.

Fixpoint hidden_load (i : nat) (sd : OrderedDict) (layers : list Linear) : list Linear :=
  match layers with
  | [] => []
  | lin :: rest => Linear_load (hidden_prefix i) sd lin :: hidden_load (S i) sd rest
  end.

Definition Network_load (sd : OrderedDict) (net : Network) : Network :=
  {| hidden_layers := hidden_load 0 sd (hidden_layers net);
     output := Linear_load "output." sd (output net) |}.

(** Modelled from the spec: [model.load_state_dict(state_dict)] is the
    parameter-loading routine of the tensor library.  Its contract is exact
    layer-by-layer shape equality between the model's allocated parameters
    and the bundle; when they agree every parameter is overwritten with the
    bundle's array, otherwise a [RuntimeError] listing the disagreements is
    raised, as recorded in the notebook.  The description of the routine
    also has a failed load leave its target untouched; the sources show
    nothing of that, and it is not built in here: the target then holds
    [failed_load] of its former contents. *)
Definition load_state_dict (self : loc) (state_dict : OrderedDict) : M unit :=
  λ w, match heap w !! self with
       | None => (Raise TypeError, w)
       | Some net =>
           match load_errors state_dict net with
           | [] =>
               (Ok (), mkWorld (<[self := Network_load state_dict net]> (heap w)) (fs w))
           | error_msgs =>
               (Raise (RuntimeError error_msgs),
                mkWorld (<[self := failed_load net state_dict]> (heap w)) (fs w))
           end
       end.

(** *** The notebook *)

(** The dictionary built in cell 12:
[[
checkpoint = {'input_size': 784,
              'output_size': 10,
              'hidden_layers': [each.out_features for each in model.hidden_layers],
              'state_dict': model.state_dict()}
]] *)
Definition checkpoint (model : loc) : M (gmap string PyVal) :=
  net <- deref model ;;
  ret ({[ "input_size" := PyInt 784;
          "output_size" := PyInt 10;
          "hidden_layers" := PyList (out_features <$> hidden_layers net);
          "state_dict" := PyOrderedDict (state_dict net) ]} : gmap string PyVal).

(** Cell 12 as a whole: [torch.save(checkpoint, 'checkpoint.pth')]. *)
Definition save_checkpoint (model : loc) : M unit :=
  checkpoint <- checkpoint model ;;
  torch_save (PyDict checkpoint) "checkpoint.pth".

(** Cell 13:
[[
def load_checkpoint(filepath):
    checkpoint = torch.load(filepath)
    model = fc_model.Network(checkpoint['input_size'],
                             checkpoint['output_size'],
                             checkpoint['hidden_layers'])
    model.load_state_dict(checkpoint['state_dict'])

    return model
]] *)
Definition load_checkpoint (filepath : string) : M loc :=
  checkpoint <- torch_load filepath ;;
  input_size <- getitem checkpoint "input_size" ;;
  output_size <- getitem checkpoint "output_size" ;;
  hidden_layers <- getitem checkpoint "hidden_layers" ;;
  input_size <- as_int input_size ;;
  output_size <- as_int output_size ;;
  hidden_layers <- as_list hidden_layers ;;
  model <- fc_model_Network input_size output_size hidden_layers ;;
  state_dict <- getitem checkpoint "state_dict" ;;
  state_dict <- as_state_dict state_dict ;;
  load_state_dict model state_dict ;;;
  ret model.

End Checkpoint.

(** ** The codec in the words of its description

    The operations [serialize], [deserialize], [instantiate] and
    [apply_parameters] are named after the description of the checkpoint
    codec; each is the corresponding piece of the notebook code, with the
    constants and the model accesses of cell 12 taken as arguments. *)

(** The four keys of a checkpoint record. *)
Definition record_keys : gset string :=
  {[ "input_size"; "output_size"; "hidden_layers"; "state_dict" ]}.

Definition checkpoint_record (input_size output_size : Z) (hidden_layers : list Z)
    (parameters : OrderedDict) : gmap string PyVal :=
  {[ "input_size" := PyInt input_size;
     "output_size" := PyInt output_size;
     "hidden_layers" := PyList hidden_layers;
     "state_dict" := PyOrderedDict parameters ]}.

Definition serialize (input_size output_size : Z) (hidden_layers : list Z)
    (parameters : OrderedDict) (filepath : string) : M unit :=
  torch_save (PyDict (checkpoint_record input_size output_size hidden_layers parameters))
             filepath.

Definition deserialize (filepath : string) : M (Z * Z * list Z * OrderedDict) :=
  checkpoint <- torch_load filepath ;;
  input_size <- getitem checkpoint "input_size" ;;
  output_size <- getitem checkpoint "output_size" ;;
  hidden_layers <- getitem checkpoint "hidden_layers" ;;
  state_dict <- getitem checkpoint "state_dict" ;;
  input_size <- as_int input_size ;;
  output_size <- as_int output_size ;;
  hidden_layers <- as_list hidden_layers ;;
  state_dict <- as_state_dict state_dict ;;
  ret (input_size, output_size, hidden_layers, state_dict).

Section Reconstruction.

Variable init : list Z → list Z.
Variable failed_load : Network → OrderedDict → Network.

Definition instantiate (descriptor : Z * Z * list Z) : M loc :=
  let '(input_size, output_size, hidden_layers) := descriptor in
  fc_model_Network init input_size output_size hidden_layers.

Definition apply_parameters (model : loc) (parameters : OrderedDict) : M unit :=
  load_state_dict failed_load model parameters.

(** Reconstruction in two phases: structure from the descriptor, then the
    numeric values into that structure. *)
Definition reconstruct (filepath : string) : M loc :=
  record <- deserialize filepath ;;
  let '(input_size, output_size, hidden_layers, parameters) := record in
  model <- instantiate (input_size, output_size, hidden_layers) ;;
  apply_parameters model parameters ;;;
  ret model.

End Reconstruction.

(** ** Predicates used in the statements *)

(** The file at [filepath] holds a checkpoint record with these fields
    (and possibly further entries). *)
Definition holds_record (w : World) (filepath : string)
    (input_size output_size : Z) (hidden_layers : list Z) (parameters : OrderedDict) : Prop :=
  ∃ d : gmap string PyVal,
    fs w !! filepath = Some (PyDict d)
    ∧ d !! "input_size" = Some (PyInt input_size)
    ∧ d !! "output_size" = Some (PyInt output_size)
    ∧ d !! "hidden_layers" = Some (PyList hidden_layers)
    ∧ d !! "state_dict" = Some (PyOrderedDict parameters).

(** Data Model invariant of a descriptor: every size is positive. *)
Definition valid_descriptor (input_size output_size : Z) (hidden_layers : list Z) : Prop :=
  0 < input_size ∧ 0 < output_size ∧ Forall (λ h, 0 < h) hidden_layers.

(** A bundle has the layout of a network: the same keys in the same order,
    each array of the shape of the parameter with its key. *)
Definition same_layout (sd : OrderedDict) (net : Network) : Prop :=
  sd.*1 = (state_dict net).*1
  ∧ shape <$> sd.*2 = shape <$> (state_dict net).*2.

(** Entry [e] of a bundle sits where parameter [p] sits in the model: same
    key, same shape, and looking the key up in the bundle [sd0] finds it. *)
Definition aligned (sd0 : OrderedDict) (e p : string * Tensor) : Prop :=
  e.1 = p.1 ∧ shape e.2 = shape p.2 ∧ sd_lookup p.1 sd0 = Some e.2.

(** The widths of the layers of a network, front to back. *)
Definition features (net : Network) : list (Z * Z) :=
  (λ lin, (in_features lin, out_features lin)) <$> (hidden_layers net ++ [output net])%list.

(** The widths of the layers a descriptor stands for: each layer maps the
    width before it to its own. *)
Definition layer_widths (input_size output_size : Z) (hidden_layers : list Z) : list (Z * Z) :=
  zip (input_size :: hidden_layers) (hidden_layers ++ [output_size])%list.

(** An entry of a record beyond the descriptor fields and the bundle; a
    declared format version would be one. *)
Definition extra_entry (d : gmap string PyVal) (key : string) : Prop :=
  (key ∉ record_keys) ∧ is_Some (d !! key).

(** Two worlds agree on the models that are live in the first. *)
Definition heap_preserved (w w' : World) : Prop :=
  ∀ l, l ∈ dom (heap w) → heap w' !! l = heap w !! l.

(** A statement that leaves the store alone and whose outcome does not
    depend on it. *)
Definition pure {A} (m : M A) (r : Outcome A) : Prop := ∀ w, m w = (r, w).

(** What a caller sees of a call that returns a model: the exception, or
    the contents of the instance returned. *)
Definition observe (x : Outcome loc * World) : Outcome (option Network) :=
  match x with
  | (Ok l, w) => Ok (heap w !! l)
  | (Raise e, _) => Raise e
  end.

(** ** The other cells of the notebook

    The cells are top-level statements over the globals [model] and
    [state_dict]; each is given the globals it reads as arguments and returns
    the binding it makes. *)

Section Cells.

Variable init : list Z → list Z.
Variable failed_load : Network → OrderedDict → Network.

(** Cell 7:
[[
torch.save(model.state_dict(), 'checkpoint.pth')
]] *)
Definition cell_7 (model : loc) : M unit :=
  net <- deref model ;;
  torch_save (PyOrderedDict (state_dict net)) "checkpoint.pth".

(** Cell 8, the assignment:
[[
state_dict = torch.load('checkpoint.pth')
]] *)
Definition cell_8 : M PyVal :=
  torch_load "checkpoint.pth".

(** Cell 9:
[[
model.load_state_dict(state_dict)
]] *)
Definition cell_9 (model : loc) (state_dict : PyVal) : M unit :=
  state_dict <- as_state_dict state_dict ;;
  load_state_dict failed_load model state_dict.

(** Cell 11:
[[
model = fc_model.Network(784, 10, [400, 200, 100])
model.load_state_dict(state_dict)
]]
    The first component is the binding of the global [model] made by the
    first statement; it is in force whether or not the second statement
    raises. *)
Definition cell_11 (state_dict : PyVal) (w : World) : option loc * (Outcome unit * World) :=
  match fc_model_Network init 784 10 [400; 200; 100] w with
  | (Ok model, w1) => (Some model, cell_9 model state_dict w1)
  | (Raise e, w1) => (None, (Raise e, w1))
  end.

(** Cell 14, the assignment:
[[
model = load_checkpoint('checkpoint.pth')
]] *)
Definition cell_14 : M loc :=
  load_checkpoint init failed_load "checkpoint.pth".

End Cells.

(** ** Networks as the constructor and training leave them *)

(** The parameters of a layer have the shapes its widths ask for. *)
Definition wf_Linear (lin : Linear) : Prop :=
  shape (weight lin) = [out_features lin; in_features lin]
  ∧ shape (bias lin) = [out_features lin].

(** Each layer takes the width the layer before it gives. *)
Fixpoint chained (previous : Z) (layers : list Linear) : Prop :=
  match layers with
  | [] => True
  | lin :: rest =>
      in_features lin = previous ∧ wf_Linear lin ∧ chained (out_features lin) rest
  end.

(** A network from [input_size] inputs to [output_size] outputs, whatever
    the values of its parameters. *)
Definition wf_Network (input_size output_size : Z) (net : Network) : Prop :=
  chained input_size (hidden_layers net)
  ∧ wf_Linear (output net)
  ∧ in_features (output net) = List.last (out_features <$> hidden_layers net) input_size
  ∧ out_features (output net) = output_size.

(** A descriptor of the kind the notebook builds its networks from:
    positive sizes and at least one hidden layer.  The constructor is not
    among the sources; what is said below about the networks it builds is
    said for these descriptors. *)
Definition constructible (input_size output_size : Z) (hidden_layers : list Z) : Prop :=
  hidden_layers ≠ [] ∧ valid_descriptor input_size output_size hidden_layers.

(** A load that fails leaves the widths of the hidden layers of its target
    as they were. *)
Definition keeps_widths (failed_load : Network → OrderedDict → Network) : Prop :=
  ∀ net sd,
    out_features <$> hidden_layers (failed_load net sd) = out_features <$> hidden_layers net.

(** ** Concrete inputs *)

(** Zero-filled storage of a given shape. *)
Definition zeros (shape : list Z) : list Z :=
  replicate (Z.to_nat (foldr Z.mul 1 shape)) 0.

(** A failed load that leaves its target as it was. *)
Definition keep (net : Network) (sd : OrderedDict) : Network := net.

(** A small network, [fc_model.Network(2, 1, [3])], with its parameters set
    to recognisable values. *)
Definition small_net : Network :=
  {| hidden_layers :=
       [ {| in_features := 2; out_features := 3;
            weight := mkTensor [3; 2] [11; 12; 21; 22; 31; 32];
            bias := mkTensor [3] [1; 2; 3] |} ];
     output :=
       {| in_features := 3; out_features := 1;
          weight := mkTensor [1; 3] [7; 8; 9];
          bias := mkTensor [1] [5] |} |}.

(** A world in which [small_net] is live at location 1. *)
Definition small_world : World := mkWorld {[ 1%positive := small_net ]} ∅.

(** The same world with a record for [small_net] on file. *)
Definition saved_world : World :=
  mkWorld {[ 1%positive := small_net ]}
          {[ "checkpoint.pth" := PyDict (checkpoint_record 2 1 [3] (state_dict small_net)) ]}.

(** That record with one more entry, a format version. *)
Definition versioned_world : World :=
  mkWorld {[ 1%positive := small_net ]}
          {[ "checkpoint.pth" :=
               PyDict (<[ "format_version" := PyInt 999 ]>
                         (checkpoint_record 2 1 [3] (state_dict small_net))) ]}.

(** The bundle of a network like [small_net] but with four hidden units. *)
Definition wider_bundle : OrderedDict := state_dict (Network_new zeros 2 1 [4]).

(** A trained network from 784 inputs to 10 outputs with one hidden layer of
    two units; only the shapes matter, the storage is zero-filled. *)
Definition mnist_net : Network := Network_new zeros 784 10 [2].

Definition mnist_world : World := mkWorld {[ 1%positive := mnist_net ]} ∅.

(** A record that lacks [state_dict]. *)
Definition descriptor_only : gmap string PyVal :=
  {[ "input_size" := PyInt 2; "output_size" := PyInt 1; "hidden_layers" := PyList [3] ]}.

Definition descriptor_only_world : World :=
  mkWorld {[ 1%positive := small_net ]} {[ "checkpoint.pth" := PyDict descriptor_only ]}.

(** The bundle of [small_net] with its entries in another order. *)
Definition shuffled_bundle : OrderedDict :=
  [ ("output.bias", mkTensor [1] [50]);
    ("output.weight", mkTensor [1; 3] [70; 80; 90]);
    ("hidden_layers.0.bias", mkTensor [3] [10; 20; 30]);
    ("hidden_layers.0.weight", mkTensor [3; 2] [1; 2; 3; 4; 5; 6]) ].

(** The world in which cell 12 has saved [mnist_net]. *)
Definition mnist_saved_world : World :=
  mkWorld {[ 1%positive := mnist_net ]}
          {[ "checkpoint.pth" := PyDict (checkpoint_record 784 10 [2] (state_dict mnist_net)) ]}.

(** Storage whose contents are left out. *)
Definition no_data (shape : list Z) : list Z := [].

(** * Properties *)

(** ** Parameter keys *)

Lemma list_ascii_of_string_app (s t : string) :
  String.list_ascii_of_string (s +:+ t)
  = (String.list_ascii_of_string s ++ String.list_ascii_of_string t)%list.
Proof. induction s as [|c s IH]; simpl; [done | by rewrite IH]. Qed.

Lemma list_ascii_of_string_inj (s t : string) :
  String.list_ascii_of_string s = String.list_ascii_of_string t → s = t.
Proof.
  intros H. rewrite <- (String.string_of_list_ascii_of_string s),
    <- (String.string_of_list_ascii_of_string t). by rewrite H.
Qed.

Lemma append_inj_r (s1 s2 t : string) : s1 +:+ t = s2 +:+ t → s1 = s2.
Proof.
  intros H. apply list_ascii_of_string_inj.
  apply (f_equal String.list_ascii_of_string) in H.
  rewrite !list_ascii_of_string_app in H. by apply app_inv_tail in H.
Qed.

Lemma weight_key_ne_bias_key (p q : string) : p +:+ "weight" ≠ q +:+ "bias".
Proof.
  intros H. apply (f_equal String.list_ascii_of_string) in H.
  rewrite !list_ascii_of_string_app in H.
  apply (f_equal last) in H. rewrite !last_app in H. simpl in H. congruence.
Qed.

Lemma hidden_prefix_inj (i j : nat) (k : string) :
  hidden_prefix i +:+ k = hidden_prefix j +:+ k → i = j.
Proof.
  intros H. apply append_inj_r in H. unfold hidden_prefix in H.
  apply (inj (String.append "hidden_layers.")) in H.
  apply append_inj_r in H. by apply (inj pretty) in H.
Qed.

Lemma hidden_key_ne_output_key (i : nat) (k k' : string) :
  hidden_prefix i +:+ k ≠ "output." +:+ k'.
Proof. unfold hidden_prefix. simpl. discriminate. Qed.

Lemma hidden_state_dict_keys (i : nat) (layers : list Linear) (key : string) :
  key ∈ (hidden_state_dict i layers).*1 →
  ∃ j, (i ≤ j)%nat ∧ (key = hidden_prefix j +:+ "weight" ∨ key = hidden_prefix j +:+ "bias").
Proof.
  revert i. induction layers as [|lin rest IH]; intros i; simpl.
  - by intros ?%elem_of_nil.
  - rewrite !elem_of_cons. intros [-> | [-> | H]].
    + exists i. auto.
    + exists i. auto.
    + destruct (IH _ H) as (j & ? & ?). exists j. split; [lia | done].
Qed.

Lemma hidden_state_dict_NoDup (i : nat) (layers : list Linear) :
  NoDup (hidden_state_dict i layers).*1.
Proof.
  revert i. induction layers as [|lin rest IH]; intros i; simpl.
  - constructor.
  - constructor; [|constructor; [|apply IH]].
    + rewrite elem_of_cons. intros [H | H].
      * by apply weight_key_ne_bias_key in H.
      * apply hidden_state_dict_keys in H as (j & Hj & [H | H]).
        -- apply hidden_prefix_inj in H. lia.
        -- by apply weight_key_ne_bias_key in H.
    + intros H. apply hidden_state_dict_keys in H as (j & Hj & [H | H]).
      * symmetry in H. by apply weight_key_ne_bias_key in H.
      * apply hidden_prefix_inj in H. lia.
Qed.

Lemma state_dict_NoDup (net : Network) : NoDup (state_dict net).*1.
Proof.
  unfold state_dict. rewrite fmap_app. apply NoDup_app. split_and!.
  - apply hidden_state_dict_NoDup.
  - intros key H. simpl. rewrite !elem_of_cons, elem_of_nil.
    apply hidden_state_dict_keys in H as (j & _ & [-> | ->]);
      intros [H | [H | []]]; by apply hidden_key_ne_output_key in H.
  - simpl. constructor; [|constructor; [apply not_elem_of_nil | constructor]].
    rewrite elem_of_cons, elem_of_nil. intros [H | []]. discriminate H.
Qed.

(** ** Lookup in an ordered dictionary *)

Lemma sd_lookup_None (key : string) (sd : OrderedDict) :
  sd_lookup key sd = None ↔ key ∉ sd.*1.
Proof.
  induction sd as [|[k t] sd IH]; simpl.
  - split; [intros _; apply not_elem_of_nil | done].
  - rewrite not_elem_of_cons. destruct (decide (k = key)) as [->|Hne].
    + split; [done | by intros [? _]].
    + rewrite IH. split; [done | by intros [_ ?]].
Qed.

Lemma sd_lookup_Some_elem (key : string) (t : Tensor) (sd : OrderedDict) :
  sd_lookup key sd = Some t → (key, t) ∈ sd.
Proof.
  induction sd as [|[k t'] sd IH]; simpl; [done|].
  destruct (decide (k = key)) as [->|Hne].
  - intros [= ->]. apply elem_of_cons. by left.
  - intros H. apply elem_of_cons. right. auto.
Qed.

Lemma sd_lookup_NoDup (key : string) (t : Tensor) (sd : OrderedDict) :
  NoDup sd.*1 → (key, t) ∈ sd → sd_lookup key sd = Some t.
Proof.
  induction sd as [|[k t'] sd IH]; simpl.
  - by intros _ ?%elem_of_nil.
  - rewrite NoDup_cons, elem_of_cons. intros [Hk Hnd] [[= -> ->] | Hin].
    + by rewrite decide_True.
    + rewrite decide_False; [auto|].
      intros ->. apply Hk. apply list_elem_of_fmap. by exists (key, t).
Qed.

(** ** Loading a bundle of the right layout *)

Lemma same_layout_aligned (sd : OrderedDict) (net : Network) :
  same_layout sd net → Forall2 (aligned sd) sd (state_dict net).
Proof.
  intros [Hkeys Hshapes].
  assert (Hnd : NoDup sd.*1) by (rewrite Hkeys; apply state_dict_NoDup).
  assert (Hlen : length sd = length (state_dict net)).
  { apply (f_equal length) in Hkeys. by rewrite !length_fmap in Hkeys. }
  apply Forall2_same_length_lookup. split; [done|].
  intros i [k t] [k' p] He Hp. unfold aligned; simpl.
  assert (k = k') as <-.
  { apply (f_equal (λ l, l !! i)) in Hkeys.
    rewrite !list_lookup_fmap, He, Hp in Hkeys. by injection Hkeys. }
  split_and!; [done | |].
  - apply (f_equal (λ l, l !! i)) in Hshapes.
    rewrite !list_lookup_fmap, He, Hp in Hshapes. by injection Hshapes.
  - apply sd_lookup_NoDup; [done|]. by eapply list_elem_of_lookup_2.
Qed.

Lemma bind_check_nil (sd0 sd params : OrderedDict) :
  Forall2 (aligned sd0) sd params → params ≫= check_param sd0 = [].
Proof.
  induction 1 as [|[k t] [k' p] sd params (Hk & Hs & Hl) _ IH]; [done|].
  simpl in *. rewrite Hl, decide_True by done. done.
Qed.

Lemma filter_not_elem_nil (l l' : list string) :
  l ⊆ l' → filter (λ k, k ∉ l') l = [].
Proof.
  induction l as [|k l IH]; [done|]. intros Hsub.
  rewrite filter_cons_False.
  - apply IH. intros x Hx. apply Hsub. apply elem_of_cons. by right.
  - intros Hk. apply Hk, Hsub. apply elem_of_cons. by left.
Qed.

Lemma load_errors_nil (sd : OrderedDict) (net : Network) :
  same_layout sd net → load_errors sd net = [].
Proof.
  intros Hlay. unfold load_errors, unexpected_keys.
  rewrite (bind_check_nil sd sd) by by apply same_layout_aligned.
  destruct Hlay as [-> _]. by rewrite filter_not_elem_nil.
Qed.

Lemma hidden_load_state_dict (i : nat) (sd : OrderedDict) (layers : list Linear) :
  hidden_state_dict i (hidden_load i sd layers)
  = (λ e, (e.1, copy_ e.1 sd e.2)) <$> hidden_state_dict i layers.
Proof.
  revert i. induction layers as [|lin rest IH]; intros i; [done|].
  simpl. by rewrite IH.
Qed.

Lemma Network_load_state_dict (sd : OrderedDict) (net : Network) :
  state_dict (Network_load sd net)
  = (λ e, (e.1, copy_ e.1 sd e.2)) <$> state_dict net.
Proof.
  unfold state_dict, Network_load; simpl.
  by rewrite hidden_load_state_dict, fmap_app.
Qed.

Lemma copy_aligned (sd0 sd params : OrderedDict) :
  Forall2 (aligned sd0) sd params →
  (λ e, (e.1, copy_ e.1 sd0 e.2)) <$> params = sd.
Proof.
  induction 1 as [|[k [s d]] [k' p] sd params (Hk & Hs & Hl) _ IH]; [done|].
  rewrite fmap_cons, IH. simpl in *. unfold copy_. rewrite Hl. simpl. by subst.
Qed.

(** A bundle of the layout of the network is loaded as it is. *)
Lemma Network_load_same_layout (sd : OrderedDict) (net : Network) :
  same_layout sd net → state_dict (Network_load sd net) = sd.
Proof.
  intros Hlay. rewrite Network_load_state_dict.
  by apply copy_aligned, same_layout_aligned.
Qed.

Lemma hidden_load_features (i : nat) (sd : OrderedDict) (layers : list Linear) :
  (λ lin, (in_features lin, out_features lin)) <$> hidden_load i sd layers
  = (λ lin, (in_features lin, out_features lin)) <$> layers.
Proof.
  revert i. induction layers as [|lin rest IH]; intros i; [done|].
  simpl. by rewrite IH.
Qed.

Lemma Network_load_features (sd : OrderedDict) (net : Network) :
  features (Network_load sd net) = features net.
Proof.
  unfold features, Network_load; simpl.
  by rewrite !fmap_app, hidden_load_features.
Qed.

(** The parameters and the widths determine a network. *)
Lemma hidden_ext (i : nat) (l1 l2 : list Linear) :
  hidden_state_dict i l1 = hidden_state_dict i l2 →
  (λ lin, (in_features lin, out_features lin)) <$> l1
  = (λ lin, (in_features lin, out_features lin)) <$> l2 →
  l1 = l2.
Proof.
  revert i l2. induction l1 as [|[a b wt bs] l1 IH]; intros i [|[a' b' wt' bs'] l2];
    simpl; try done.
  intros [= -> -> Hrest] [= -> -> Hfeat]. f_equal. eauto.
Qed.

Lemma Network_ext (n1 n2 : Network) :
  state_dict n1 = state_dict n2 → features n1 = features n2 → n1 = n2.
Proof.
  destruct n1 as [h1 [a1 b1 w1 s1]], n2 as [h2 [a2 b2 w2 s2]].
  unfold state_dict, features; simpl. intros Hsd Hfeat.
  rewrite !fmap_app in Hfeat. simpl in Hfeat.
  assert (Hlen : length h1 = length h2).
  { apply (f_equal length) in Hfeat. rewrite !length_app, !length_fmap in Hfeat.
    simpl in Hfeat. lia. }
  apply app_inj_2 in Hfeat as [Hh [= -> ->]]; [|done].
  assert (Hlen' : ∀ i (l : list Linear), length (hidden_state_dict i l) = (2 * length l)%nat).
  { intros i l. revert i. induction l as [|x l IHl]; intros i; simpl; [done|].
    rewrite IHl. lia. }
  apply app_inj_1 in Hsd as [Hhid [= -> ->]]; [|rewrite !Hlen'; lia].
  f_equal. by eapply hidden_ext.
Qed.

(** ** The notebook code *)

Section Properties.

Variable init : list Z → list Z.
Variable failed_load : Network → OrderedDict → Network.

Lemma checkpoint_live (model : loc) (net : Network) (w : World) :
  heap w !! model = Some net →
  checkpoint model w
  = (Ok (checkpoint_record 784 10 (out_features <$> hidden_layers net) (state_dict net)), w).
Proof. intros H. unfold checkpoint, bind, deref. by rewrite H. Qed.

(** Cell 12 is [serialize] at the constants 784 and 10, the output widths of
    the hidden layers and the state dict of the model. *)
Lemma save_checkpoint_serialize (model : loc) (net : Network) (w : World) :
  heap w !! model = Some net →
  save_checkpoint model w
  = serialize 784 10 (out_features <$> hidden_layers net) (state_dict net)
              "checkpoint.pth" w.
Proof.
  intros H. unfold save_checkpoint, bind. by rewrite (checkpoint_live _ _ _ H).
Qed.

Lemma checkpoint_record_dom (a b : Z) (hs : list Z) (sd : OrderedDict) :
  dom (checkpoint_record a b hs sd) = record_keys.
Proof. unfold checkpoint_record, record_keys. rewrite !dom_insert_L. set_solver. Qed.

Lemma checkpoint_record_lookup (a b : Z) (hs : list Z) (sd : OrderedDict) :
  checkpoint_record a b hs sd !! "input_size" = Some (PyInt a)
  ∧ checkpoint_record a b hs sd !! "output_size" = Some (PyInt b)
  ∧ checkpoint_record a b hs sd !! "hidden_layers" = Some (PyList hs)
  ∧ checkpoint_record a b hs sd !! "state_dict" = Some (PyOrderedDict sd).
Proof. unfold checkpoint_record. split_and!; by simplify_map_eq. Qed.

Lemma serialize_holds_record (a b : Z) (hs : list Z) (sd : OrderedDict)
    (filepath : string) (w : World) :
  holds_record (serialize a b hs sd filepath w).2 filepath a b hs sd.
Proof.
  exists (checkpoint_record a b hs sd). unfold serialize, torch_save; simpl.
  split; [apply lookup_insert_eq | apply checkpoint_record_lookup].
Qed.

Lemma deserialize_on_record (filepath : string) (w : World)
    (a b : Z) (hs : list Z) (sd : OrderedDict) :
  holds_record w filepath a b hs sd →
  deserialize filepath w = (Ok (a, b, hs, sd), w).
Proof.
  intros (d & Hf & Ha & Hb & Hhs & Hsd).
  unfold deserialize, bind, torch_load. rewrite Hf. simpl.
  unfold bind, getitem. by rewrite Ha, Hb, Hhs, Hsd.
Qed.

(** C5: every checkpoint record persisted by cell 12 is a mapping with
    exactly the keys [input_size], [output_size], [hidden_layers] and
    [state_dict]; the first two hold integers, [hidden_layers] holds the
    output widths of the model's hidden layers front to back, and
    [state_dict] the mapping from parameter key to array. *)
Theorem checkpoint_record_shape (model : loc) (net : Network) (w : World) :
  heap w !! model = Some net →
  ∃ (d : gmap string PyVal) (w' : World) (input_size output_size : Z)
    (widths : list Z) (sd : OrderedDict),
    save_checkpoint model w = (Ok (), w')
    ∧ fs w' !! "checkpoint.pth" = Some (PyDict d)
    ∧ dom d = {[ "input_size"; "output_size"; "hidden_layers"; "state_dict" ]}
    ∧ d !! "input_size" = Some (PyInt input_size)
    ∧ d !! "output_size" = Some (PyInt output_size)
    ∧ d !! "hidden_layers" = Some (PyList widths)
    ∧ d !! "state_dict" = Some (PyOrderedDict sd)
    ∧ length widths = length (hidden_layers net)
    ∧ (∀ i lin, hidden_layers net !! i = Some lin → widths !! i = Some (out_features lin))
    ∧ sd = state_dict net.
Proof.
  intros H.
  exists (checkpoint_record 784 10 (out_features <$> hidden_layers net) (state_dict net)).
  eexists _, 784, 10, (out_features <$> hidden_layers net), (state_dict net).
  rewrite (save_checkpoint_serialize _ _ _ H). unfold serialize, torch_save; simpl.
  split; [done|]. split; [apply lookup_insert_eq|].
  split; [apply checkpoint_record_dom|].
  destruct (checkpoint_record_lookup 784 10 (out_features <$> hidden_layers net)
              (state_dict net)) as (? & ? & ? & ?).
  split_and!; try done.
  - by rewrite length_fmap.
  - intros i lin Hi. by rewrite list_lookup_fmap, Hi.
Qed.

(** C1: reading back what was serialized yields the descriptor and the
    parameter bundle that were written, the bundle with the same keys in the
    same order and the same arrays; this holds for every descriptor and
    bundle, and for the record that cell 12 writes for a live model. *)
Theorem serialize_deserialize_roundtrip :
  (∀ (a b : Z) (hs : list Z) (sd : OrderedDict) (filepath : string) (w : World),
     (serialize a b hs sd filepath ;;; deserialize filepath) w
     = (Ok (a, b, hs, sd), (serialize a b hs sd filepath w).2))
  ∧ (∀ (model : loc) (net : Network) (w : World),
       heap w !! model = Some net →
       (save_checkpoint model ;;; deserialize "checkpoint.pth") w
       = (Ok (784, 10, out_features <$> hidden_layers net, state_dict net),
          (save_checkpoint model w).2)).
Proof.
  assert (Hgen : ∀ a b hs sd filepath w,
    (serialize a b hs sd filepath ;;; deserialize filepath) w
    = (Ok (a, b, hs, sd), (serialize a b hs sd filepath w).2)).
  { intros. unfold bind at 1.
    pose proof (serialize_holds_record a b hs sd filepath w) as Hrec.
    destruct (serialize a b hs sd filepath w) as [[[]|e] w'] eqn:Hs;
      [|unfold serialize, torch_save in Hs; discriminate].
    by apply deserialize_on_record. }
  split; [exact Hgen|].
  intros model net w H. specialize (Hgen 784 10 (out_features <$> hidden_layers net)
    (state_dict net) "checkpoint.pth" w).
  unfold bind in *. by rewrite (save_checkpoint_serialize _ _ _ H).
Qed.

(** *** Loading parameters *)

Lemma check_param_mismatch (sd : OrderedDict) (key : string) (param input_param : Tensor) :
  sd_lookup key sd = Some input_param →
  shape input_param ≠ shape param →
  check_param sd (key, param) = [SizeMismatch key (shape input_param) (shape param)].
Proof. intros Hl Hne. unfold check_param. by rewrite Hl, decide_False. Qed.

(** The run recorded in cell 11 of the notebook: the bundle of the network
    with hidden widths 512, 256, 128 against the network with hidden widths
    400, 200, 100 gives the seven size mismatches of the recorded error;
    [output.bias], of shape 10 in both, is not among them. *)
Lemma notebook_cell_11 :
  load_errors (state_dict (Network_new init 784 10 [512; 256; 128]))
              (Network_new init 784 10 [400; 200; 100])
  = [ SizeMismatch "hidden_layers.0.weight" [512; 784] [400; 784];
      SizeMismatch "hidden_layers.0.bias" [512] [400];
      SizeMismatch "hidden_layers.1.weight" [256; 512] [200; 400];
      SizeMismatch "hidden_layers.1.bias" [256] [200];
      SizeMismatch "hidden_layers.2.weight" [128; 256] [100; 200];
      SizeMismatch "hidden_layers.2.bias" [128] [100];
      SizeMismatch "output.weight" [10; 128] [10; 100] ].
Proof. vm_compute. reflexivity. Qed.

Lemma notebook_cell_11_raises (self : loc) (w : World) :
  heap w !! self = Some (Network_new init 784 10 [400; 200; 100]) →
  ∃ w',
    load_state_dict failed_load self (state_dict (Network_new init 784 10 [512; 256; 128])) w
    = (Raise (RuntimeError
         [ SizeMismatch "hidden_layers.0.weight" [512; 784] [400; 784];
           SizeMismatch "hidden_layers.0.bias" [512] [400];
           SizeMismatch "hidden_layers.1.weight" [256; 512] [200; 400];
           SizeMismatch "hidden_layers.1.bias" [256] [200];
           SizeMismatch "hidden_layers.2.weight" [128; 256] [100; 200];
           SizeMismatch "hidden_layers.2.bias" [128] [100];
           SizeMismatch "output.weight" [10; 128] [10; 100] ]), w').
Proof.
  intros Hself. unfold load_state_dict. rewrite Hself, notebook_cell_11. by eexists.
Qed.

(** After a failed load the target holds [failed_load] of its former
    contents; whether a failed load is atomic is exactly the question what
    [failed_load] is. *)
Lemma load_state_dict_failure_state (self : loc) (net : Network) (sd : OrderedDict)
    (w w' : World) (e : Exn) :
  heap w !! self = Some net →
  load_state_dict failed_load self sd w = (Raise e, w') →
  heap w' !! self = Some (failed_load net sd).
Proof.
  intros Hself. unfold load_state_dict. rewrite Hself.
  destruct (load_errors sd net); intros [= <- <-]; simpl. apply lookup_insert_eq.
Qed.

(** A load that succeeds overwrites every parameter and nothing else. *)
Lemma load_state_dict_success_state (self : loc) (net : Network) (sd : OrderedDict)
    (w w' : World) :
  heap w !! self = Some net →
  load_state_dict failed_load self sd w = (Ok (), w') →
  load_errors sd net = []
  ∧ w' = mkWorld (<[self := Network_load sd net]> (heap w)) (fs w).
Proof.
  intros Hself. unfold load_state_dict. rewrite Hself.
  destruct (load_errors sd net); [|discriminate]. by intros [= <-].
Qed.

(** C2: when some array of the bundle has a shape other than that of the
    model's parameter with the same key, [load_state_dict] raises, and the
    error names that key with the two shapes. *)
Theorem load_state_dict_size_mismatch (self : loc) (net : Network) (sd : OrderedDict)
    (key : string) (param input_param : Tensor) (w : World) :
  heap w !! self = Some net →
  (key, param) ∈ state_dict net →
  sd_lookup key sd = Some input_param →
  shape input_param ≠ shape param →
  ∃ error_msgs w',
    load_state_dict failed_load self sd w = (Raise (RuntimeError error_msgs), w')
    ∧ SizeMismatch key (shape input_param) (shape param) ∈ error_msgs.
Proof.
  intros Hself Hparam Hl Hne.
  assert (Hin : SizeMismatch key (shape input_param) (shape param) ∈ load_errors sd net).
  { unfold load_errors. apply elem_of_app. left. apply list_elem_of_bind.
    exists (key, param). split; [|done].
    rewrite (check_param_mismatch _ _ _ _ Hl Hne). apply elem_of_cons. by left. }
  unfold load_state_dict. rewrite Hself.
  destruct (load_errors sd net) as [|msg msgs] eqn:Herr.
  - by apply elem_of_nil in Hin.
  - by eexists _, _.
Qed.

(** *** Rebuilding a model from a file *)

Lemma last_cons_irrel (h : Z) (t : list Z) (d d' : Z) :
  List.last (h :: t) d = List.last (h :: t) d'.
Proof. revert h. induction t as [|x t IH]; intros h; [done|]. apply (IH x). Qed.

Lemma last_cons_default (h : Z) (t : list Z) (d : Z) :
  List.last (h :: t) d = List.last t h.
Proof. destruct t as [|x t]; [done|]. apply (last_cons_irrel x t d h). Qed.

Lemma features_Network_new (a b : Z) (hs : list Z) :
  features (Network_new init a b hs) = layer_widths a b hs.
Proof.
  unfold features, layer_widths, Network_new; simpl. rewrite fmap_app; simpl.
  revert a. induction hs as [|h t IH]; intros a; [done|].
  rewrite last_cons_default. simpl. f_equal. apply IH.
Qed.

(** On a file that holds a record, [load_checkpoint] is the constructor
    followed by the load into the instance just created. *)
Lemma load_checkpoint_on_record (filepath : string) (w : World)
    (a b : Z) (hs : list Z) (sd : OrderedDict) :
  holds_record w filepath a b hs sd →
  load_checkpoint init failed_load filepath w
  = (load_state_dict failed_load (fresh (dom (heap w))) sd ;;; ret (fresh (dom (heap w))))
      (mkWorld (<[fresh (dom (heap w)) := Network_new init a b hs]> (heap w)) (fs w)).
Proof.
  intros (d & Hf & Ha & Hb & Hhs & Hsd).
  unfold load_checkpoint, bind at 1 2 3 4. unfold torch_load. rewrite Hf.
  unfold getitem. rewrite Ha, Hb, Hhs. simpl.
  unfold bind at 1 2 3 4 5 6. simpl. by rewrite Hsd.
Qed.

Lemma load_checkpoint_success (filepath : string) (w : World)
    (a b : Z) (hs : list Z) (sd : OrderedDict) :
  holds_record w filepath a b hs sd →
  same_layout sd (Network_new init a b hs) →
  load_checkpoint init failed_load filepath w
  = (Ok (fresh (dom (heap w))),
     mkWorld (<[fresh (dom (heap w)) := Network_load sd (Network_new init a b hs)]> (heap w))
             (fs w)).
Proof.
  intros Hrec Hlay. rewrite (load_checkpoint_on_record _ _ _ _ _ _ Hrec).
  unfold bind, load_state_dict; simpl.
  rewrite lookup_insert_eq, (load_errors_nil _ _ Hlay). simpl.
  by rewrite insert_insert_eq.
Qed.

(** Stepping through the statements of [load_checkpoint]. *)

Lemma bind_Ok {A B} (m : M A) (k : A → M B) (w w' : World) (a : A) :
  m w = (Ok a, w') → bind m k w = k a w'.
Proof. intros H. unfold bind. by rewrite H. Qed.

Lemma bind_pure {A B} (m : M A) (r : Outcome A) (H : pure m r) (k : A → M B) (w : World) :
  bind m k w = match r with Ok a => k a w | Raise e => (Raise e, w) end.
Proof. unfold bind. rewrite (H w). by destruct r. Qed.

Lemma getitem_pure (obj : PyVal) (key : string) : ∃ r, pure (getitem obj key) r.
Proof.
  destruct obj as [n|l|t|sd|d]; simpl; try (by eexists).
  - destruct (sd_lookup key sd); by eexists.
  - destruct (d !! key); by eexists.
Qed.

Lemma as_int_pure (v : PyVal) : ∃ r, pure (as_int v) r.
Proof. destruct v; by eexists. Qed.

Lemma as_list_pure (v : PyVal) : ∃ r, pure (as_list v) r.
Proof. destruct v; by eexists. Qed.

Lemma as_state_dict_pure (v : PyVal) : ∃ r, pure (as_state_dict v) r.
Proof. destruct v; by eexists. Qed.

Lemma bind_torch_load {B} (filepath : string) (k : PyVal → M B) (w : World) :
  bind (torch_load filepath) k w
  = match fs w !! filepath with
    | Some obj => k obj w
    | None => (Raise (FileNotFoundError filepath), w)
    end.
Proof. unfold bind, torch_load. by destruct (fs w !! filepath). Qed.

Lemma bind_Network {B} (a b : Z) (hs : list Z) (k : loc → M B) (w : World) :
  bind (fc_model_Network init a b hs) k w
  = k (fresh (dom (heap w)))
      (mkWorld (<[fresh (dom (heap w)) := Network_new init a b hs]> (heap w)) (fs w)).
Proof. done. Qed.

Lemma load_into_fresh (l : loc) (net : Network) (sd : OrderedDict) (h : gmap loc Network)
    (files : gmap string PyVal) :
  (load_state_dict failed_load l sd ;;; ret l) (mkWorld (<[l := net]> h) files)
  = match load_errors sd net with
    | [] => (Ok l, mkWorld (<[l := Network_load sd net]> h) files)
    | error_msgs =>
        (Raise (RuntimeError error_msgs), mkWorld (<[l := failed_load net sd]> h) files)
    end.
Proof.
  unfold bind, load_state_dict; simpl. rewrite lookup_insert_eq.
  destruct (load_errors sd net); simpl; by rewrite insert_insert_eq.
Qed.

Tactic Notation "pure_step" constr(lem) "as" ident(v) :=
  let r := fresh "r" in
  let H := fresh "Hpure" in
  destruct lem as [r H]; rewrite !(bind_pure _ _ H); clear H; destruct r as [v|?].

(** The three ways a call can end: before the constructor ran, after it
    with an exception, or with the new instance. *)
Lemma load_checkpoint_cases (filepath : string) (w : World) :
  (∃ e, load_checkpoint init failed_load filepath w = (Raise e, w))
  ∨ (∃ e net, load_checkpoint init failed_load filepath w
              = (Raise e, mkWorld (<[fresh (dom (heap w)) := net]> (heap w)) (fs w)))
  ∨ (∃ net, load_checkpoint init failed_load filepath w
            = (Ok (fresh (dom (heap w))),
               mkWorld (<[fresh (dom (heap w)) := net]> (heap w)) (fs w))).
Proof.
  unfold load_checkpoint. rewrite bind_torch_load.
  destruct (fs w !! filepath) as [ck|]; [|left; eauto].
  pure_step (getitem_pure ck "input_size") as v1; [|left; eauto].
  pure_step (getitem_pure ck "output_size") as v2; [|left; eauto].
  pure_step (getitem_pure ck "hidden_layers") as v3; [|left; eauto].
  pure_step (as_int_pure v1) as a; [|left; eauto].
  pure_step (as_int_pure v2) as b; [|left; eauto].
  pure_step (as_list_pure v3) as hs; [|left; eauto].
  rewrite bind_Network.
  pure_step (getitem_pure ck "state_dict") as v4; [|right; left; eauto].
  pure_step (as_state_dict_pure v4) as sd; [|right; left; eauto].
  rewrite load_into_fresh. destruct (load_errors _ _); eauto.
Qed.

Lemma fresh_preserved (w : World) (net : Network) :
  heap_preserved w (mkWorld (<[fresh (dom (heap w)) := net]> (heap w)) (fs w)).
Proof.
  intros l Hl. simpl. apply lookup_insert_ne. intros <-. by apply is_fresh in Hl.
Qed.

Lemma getitem_agree (d d' : gmap string PyVal) (key : string) :
  d !! key = d' !! key → getitem (PyDict d') key = getitem (PyDict d) key.
Proof. intros H. unfold getitem. by rewrite H. Qed.

(** C4: on every checkpoint record, [load_checkpoint] first builds a new
    instance from the three descriptor fields alone, at a location that was
    not in use, and then applies the bundle to that instance; this is the
    two-phase reconstruction, and no model that was live before the call
    enters it. *)
Theorem load_checkpoint_two_phases (filepath : string) (w : World)
    (a b : Z) (hs : list Z) (sd : OrderedDict) :
  holds_record w filepath a b hs sd →
  let model := fresh (dom (heap w)) in
  let w1 := mkWorld (<[model := Network_new init a b hs]> (heap w)) (fs w) in
  (model ∉ dom (heap w))
  ∧ instantiate init (a, b, hs) w = (Ok model, w1)
  ∧ load_checkpoint init failed_load filepath w
    = (apply_parameters failed_load model sd ;;; ret model) w1
  ∧ load_checkpoint init failed_load filepath w = reconstruct init failed_load filepath w.
Proof.
  intros Hrec model w1. split_and!.
  - apply is_fresh.
  - done.
  - by apply load_checkpoint_on_record.
  - rewrite (load_checkpoint_on_record _ _ _ _ _ _ Hrec).
    unfold reconstruct.
    by rewrite (bind_Ok _ _ _ _ _ (deserialize_on_record _ _ _ _ _ _ Hrec)).
Qed.

(** C8, as the code has it: the record that cell 12 persists has exactly
    the four data keys and no other entry, so it declares no format version; and
    [load_checkpoint] reads those four keys only: records that agree on them
    are loaded alike, whatever else they hold. *)
Theorem no_format_version :
  (∀ (model : loc) (net : Network) (w : World),
     heap w !! model = Some net →
     ∃ (d : gmap string PyVal) (w' : World),
       save_checkpoint model w = (Ok (), w')
       ∧ fs w' !! "checkpoint.pth" = Some (PyDict d)
       ∧ dom d = record_keys
       ∧ ∀ key, ¬ extra_entry d key)
  ∧ (∀ (filepath : string) (w w' : World) (d d' : gmap string PyVal),
       fs w !! filepath = Some (PyDict d) →
       fs w' !! filepath = Some (PyDict d') →
       (∀ key, key ∈ record_keys → d !! key = d' !! key) →
       observe (load_checkpoint init failed_load filepath w')
       = observe (load_checkpoint init failed_load filepath w)).
Proof.
  split.
  - intros model net w H.
    exists (checkpoint_record 784 10 (out_features <$> hidden_layers net) (state_dict net)).
    eexists. rewrite (save_checkpoint_serialize _ _ _ H).
    unfold serialize, torch_save; simpl.
    split; [done|]. split; [apply lookup_insert_eq|].
    split; [apply checkpoint_record_dom|].
    intros key [Hkey Hsome]. apply Hkey.
    rewrite <- (checkpoint_record_dom 784 10 (out_features <$> hidden_layers net)
                  (state_dict net)).
    by apply elem_of_dom.
  - intros filepath w w' d d' Hf Hf' Hagree.
    unfold load_checkpoint. rewrite !bind_torch_load, Hf, Hf'.
    rewrite !(getitem_agree d d') by (apply Hagree; unfold record_keys; set_solver).
    pure_step (getitem_pure (PyDict d) "input_size") as v1; [|done].
    pure_step (getitem_pure (PyDict d) "output_size") as v2; [|done].
    pure_step (getitem_pure (PyDict d) "hidden_layers") as v3; [|done].
    pure_step (as_int_pure v1) as a; [|done].
    pure_step (as_int_pure v2) as b; [|done].
    pure_step (as_list_pure v3) as hs; [|done].
    rewrite !bind_Network.
    pure_step (getitem_pure (PyDict d) "state_dict") as v4; [|done].
    pure_step (as_state_dict_pure v4) as sd; [|done].
    rewrite !load_into_fresh.
    destruct (load_errors _ _); simpl; [|done]. by rewrite !lookup_insert_eq.
Qed.


(** C10, as the code has it: in every call the files are left as they were
    and so is every model that was live before the call, and what the call
    yields depends on the contents of the file alone; a call that returns,
    returns an instance at a location that was not in use; and the call does
    return when the file holds a record whose bundle has the layout of the
    network its descriptor stands for, the new instance then holding exactly
    that bundle. *)
Theorem load_checkpoint_new_instance (filepath : string) (w : World) :
  (∀ r w',
     load_checkpoint init failed_load filepath w = (r, w') →
     fs w' = fs w
     ∧ heap_preserved w w'
     ∧ ∀ model, r = Ok model → (model ∉ dom (heap w)) ∧ is_Some (heap w' !! model))
  ∧ (∀ w2,
       fs w2 !! filepath = fs w !! filepath →
       observe (load_checkpoint init failed_load filepath w2)
       = observe (load_checkpoint init failed_load filepath w))
  ∧ (∀ (a b : Z) (hs : list Z) (sd : OrderedDict),
       holds_record w filepath a b hs sd →
       same_layout sd (Network_new init a b hs) →
       ∃ model net w',
         load_checkpoint init failed_load filepath w = (Ok model, w')
         ∧ heap w' !! model = Some net
         ∧ state_dict net = sd
         ∧ features net = layer_widths a b hs).
Proof.
  split_and!.
  - intros r w' Hrun.
    destruct (load_checkpoint_cases filepath w) as [[e H] | [(e & net & H) | [net H]]];
      rewrite H in Hrun; injection Hrun as <- <-; simpl.
    + split_and!; [done | by intros l _ | done].
    + split_and!; [done | apply fresh_preserved | done].
    + split_and!; [done | apply fresh_preserved |].
      intros model [= <-]. split; [apply is_fresh|].
      exists net. apply lookup_insert_eq.
  - intros w2 Hf. unfold load_checkpoint. rewrite !bind_torch_load, Hf.
    destruct (fs w !! filepath) as [ck|]; [|done].
    pure_step (getitem_pure ck "input_size") as v1; [|done].
    pure_step (getitem_pure ck "output_size") as v2; [|done].
    pure_step (getitem_pure ck "hidden_layers") as v3; [|done].
    pure_step (as_int_pure v1) as a; [|done].
    pure_step (as_int_pure v2) as b; [|done].
    pure_step (as_list_pure v3) as hs; [|done].
    rewrite !bind_Network.
    pure_step (getitem_pure ck "state_dict") as v4; [|done].
    pure_step (as_state_dict_pure v4) as sd; [|done].
    rewrite !load_into_fresh.
    destruct (load_errors _ _); simpl; [|done]. by rewrite !lookup_insert_eq.
  - intros a b hs sd Hrec Hlay. eexists _, _, _. split_and!.
    + apply (load_checkpoint_success _ _ _ _ _ _ Hrec Hlay).
    + simpl. apply lookup_insert_eq.
    + by apply Network_load_same_layout.
    + by rewrite Network_load_features, features_Network_new.
Qed.

End Properties.

(** * Instances *)

Lemma checkpoint_record_shape_witness :
  heap small_world !! 1%positive = Some small_net
  ∧ ∃ d : gmap string PyVal,
      fs (save_checkpoint 1%positive small_world).2 !! "checkpoint.pth" = Some (PyDict d)
      ∧ dom d = {[ "input_size"; "output_size"; "hidden_layers"; "state_dict" ]}
      ∧ d !! "hidden_layers" = Some (PyList [3]).
Proof.
  split; [reflexivity|].
  destruct (checkpoint_record_shape 1%positive small_net small_world eq_refl)
    as (d & w' & a & b & widths & sd & Hrun & Hfile & Hdom & _ & _ & Hw & _ & Hlen & Hi & _).
  exists d. rewrite Hrun. split; [exact Hfile|]. split; [exact Hdom|].
  rewrite Hw. f_equal. f_equal.
  specialize (Hi 0%nat _ eq_refl). simpl in Hi, Hlen.
  destruct widths as [|x [|y widths]]; simpl in *; try discriminate; congruence.
Defined.

Lemma serialize_deserialize_roundtrip_witness :
  heap small_world !! 1%positive = Some small_net
  ∧ (save_checkpoint 1%positive ;;; deserialize "checkpoint.pth") small_world
    = (Ok (784, 10, [3], state_dict small_net), (save_checkpoint 1%positive small_world).2).
Proof.
  split; [reflexivity|].
  exact (proj2 serialize_deserialize_roundtrip 1%positive small_net small_world eq_refl).
Defined.

Lemma load_state_dict_size_mismatch_witness :
  heap small_world !! 1%positive = Some small_net
  ∧ sd_lookup "hidden_layers.0.weight" wider_bundle = Some (mkTensor [4; 2] (zeros [4; 2]))
  ∧ ∃ error_msgs w',
      load_state_dict keep 1%positive wider_bundle small_world
      = (Raise (RuntimeError error_msgs), w')
      ∧ SizeMismatch "hidden_layers.0.weight" [4; 2] [3; 2] ∈ error_msgs.
Proof.
  split; [reflexivity|]. split; [reflexivity|].
  apply (load_state_dict_size_mismatch keep 1%positive small_net wider_bundle
           "hidden_layers.0.weight"
           (mkTensor [3; 2] [11; 12; 21; 22; 31; 32])
           (mkTensor [4; 2] (zeros [4; 2])) small_world).
  - reflexivity.
  - vm_compute. apply elem_of_cons. left. reflexivity.
  - reflexivity.
  - simpl. discriminate.
Defined.

Lemma saved_world_holds_record :
  holds_record saved_world "checkpoint.pth" 2 1 [3] (state_dict small_net).
Proof.
  exists (checkpoint_record 2 1 [3] (state_dict small_net)).
  split; [reflexivity|]. apply checkpoint_record_lookup.
Defined.

Lemma load_checkpoint_two_phases_witness :
  holds_record saved_world "checkpoint.pth" 2 1 [3] (state_dict small_net)
  ∧ instantiate zeros (2, 1, [3]) saved_world
    = (Ok 2%positive,
       mkWorld (<[2%positive := Network_new zeros 2 1 [3]]> (heap saved_world))
               (fs saved_world))
  ∧ load_checkpoint zeros keep "checkpoint.pth" saved_world
    = reconstruct zeros keep "checkpoint.pth" saved_world.
Proof.
  split; [exact saved_world_holds_record|].
  destruct (load_checkpoint_two_phases zeros keep "checkpoint.pth" saved_world
              2 1 [3] (state_dict small_net) saved_world_holds_record)
    as (_ & Hinst & _ & Hrec).
  split; [exact Hinst | exact Hrec].
Defined.

Lemma no_format_version_witness :
  heap small_world !! 1%positive = Some small_net
  ∧ ∃ (d : gmap string PyVal) (w' : World),
      save_checkpoint 1%positive small_world = (Ok (), w')
      ∧ fs w' !! "checkpoint.pth" = Some (PyDict d)
      ∧ dom d = record_keys
      ∧ ∀ key, ¬ extra_entry d key.
Proof.
  split; [reflexivity|].
  exact (proj1 (no_format_version zeros keep) 1%positive small_net small_world eq_refl).
Defined.


Lemma small_net_layout : same_layout (state_dict small_net) (Network_new zeros 2 1 [3]).
Proof. split; reflexivity. Defined.

Lemma load_checkpoint_new_instance_witness :
  holds_record saved_world "checkpoint.pth" 2 1 [3] (state_dict small_net)
  ∧ same_layout (state_dict small_net) (Network_new zeros 2 1 [3])
  ∧ ∃ model net w',
      load_checkpoint zeros keep "checkpoint.pth" saved_world = (Ok model, w')
      ∧ heap w' !! model = Some net
      ∧ state_dict net = state_dict small_net
      ∧ features net = layer_widths 2 1 [3].
Proof.
  split; [exact saved_world_holds_record|]. split; [exact small_net_layout|].
  exact (proj2 (proj2 (load_checkpoint_new_instance zeros keep "checkpoint.pth" saved_world))
           2 1 [3] (state_dict small_net) saved_world_holds_record small_net_layout).
Defined.

(** ** Inputs on which a claim fails *)

(** C8: the record that cell 12 writes for [small_net] has no entry that
    could declare a version; and a record that does carry a version entry,
    of a value no codec was ever written for, is loaded without an error. *)
Lemma record_without_version :
  (∃ d : gmap string PyVal,
     fs (save_checkpoint 1%positive small_world).2 !! "checkpoint.pth" = Some (PyDict d)
     ∧ ¬ ∃ key, extra_entry d key)
  ∧ extra_entry (<[ "format_version" := PyInt 999 ]>
                   (checkpoint_record 2 1 [3] (state_dict small_net))) "format_version"
  ∧ (load_checkpoint zeros keep "checkpoint.pth" versioned_world).1 = Ok 2%positive.
Proof.
  split_and!.
  - exists (checkpoint_record 784 10 [3] (state_dict small_net)).
    split; [reflexivity|]. intros [key [Hkey Hsome]]. apply Hkey.
    rewrite <- (checkpoint_record_dom 784 10 [3] (state_dict small_net)).
    by apply elem_of_dom.
  - split; [|eexists; apply lookup_insert_eq].
    unfold record_keys. rewrite !elem_of_union, !elem_of_singleton.
    intros [[[H|H]|H]|H]; discriminate H.
  - vm_compute. reflexivity.
Qed.

(** C10: the file that cell 12 writes for [small_net], a network from 2
    inputs to 1 output, is readable, and [load_checkpoint] raises on it: the
    record says 784 and 10, and the bundle does not fit that network. *)
Lemma load_checkpoint_raises_on_saved_file :
  save_checkpoint 1%positive small_world
  = (Ok (), (save_checkpoint 1%positive small_world).2)
  ∧ is_Some (fs (save_checkpoint 1%positive small_world).2 !! "checkpoint.pth")
  ∧ (load_checkpoint zeros keep "checkpoint.pth" (save_checkpoint 1%positive small_world).2).1
    = Raise (RuntimeError
               [ SizeMismatch "hidden_layers.0.weight" [3; 2] [3; 784];
                 SizeMismatch "output.weight" [1; 3] [10; 3];
                 SizeMismatch "output.bias" [1] [10] ]).
Proof.
  split; [reflexivity|]. split.
  - eexists. unfold save_checkpoint, bind; simpl. apply lookup_insert_eq.
  - vm_compute. reflexivity.
Qed.

(** * The notebook beyond the checkpoint record *)

Section Notebook.

Variable init : list Z → list Z.
Variable failed_load : Network → OrderedDict → Network.

Lemma fresh_ne (h : gmap loc Network) (l : loc) :
  is_Some (h !! l) → fresh (dom h) ≠ l.
Proof. intros Hl Heq. apply (is_fresh (dom h)). rewrite Heq. by apply elem_of_dom. Qed.

(** ** A model and its own state dict *)

Lemma same_layout_refl (net : Network) : same_layout (state_dict net) net.
Proof. by split. Qed.

Lemma Network_load_self (net : Network) : Network_load (state_dict net) net = net.
Proof.
  apply Network_ext.
  - apply Network_load_same_layout, same_layout_refl.
  - apply Network_load_features.
Qed.

Lemma load_state_dict_self (self : loc) (net : Network) (w : World) :
  heap w !! self = Some net →
  load_state_dict failed_load self (state_dict net) w = (Ok (), w).
Proof.
  intros H. unfold load_state_dict.
  rewrite H, (load_errors_nil _ _ (same_layout_refl net)), Network_load_self.
  rewrite (insert_id _ _ _ H). by destruct w.
Qed.

(** X1: saving the state dict of a model, reading it back and loading it
    into the same model (cells 7 to 9) succeeds for every live model and
    leaves every model as it was; the only change is the file. *)
Theorem state_dict_save_load_self (model : loc) (net : Network) (w : World) :
  heap w !! model = Some net →
  (cell_7 model ;;; (state_dict <- cell_8 ;; cell_9 failed_load model state_dict)) w
  = (Ok (),
     mkWorld (heap w) (<["checkpoint.pth" := PyOrderedDict (state_dict net)]> (fs w))).
Proof.
  intros H. unfold cell_7, cell_8, cell_9.
  set (w1 := mkWorld (heap w) (<["checkpoint.pth" := PyOrderedDict (state_dict net)]> (fs w))).
  assert (Hsave : (net0 <- deref model ;;
                   torch_save (PyOrderedDict (state_dict net0)) "checkpoint.pth") w
                  = (Ok (), w1)).
  { unfold bind, deref. by rewrite H. }
  rewrite (bind_Ok _ _ _ _ _ Hsave), bind_torch_load.
  assert (Hfile : fs w1 !! "checkpoint.pth" = Some (PyOrderedDict (state_dict net)))
    by apply lookup_insert_eq.
  rewrite Hfile. unfold bind, as_state_dict, ret.
  by apply load_state_dict_self.
Qed.

(** ** Networks with the shapes of their widths *)

Lemma hidden_stack_widths (a : Z) (hs : list Z) :
  out_features <$> hidden_stack init a hs = hs.
Proof. revert a. induction hs as [|h hs IH]; intros a; [done|]. simpl. by rewrite IH. Qed.

Lemma hidden_stack_chained (a : Z) (hs : list Z) : chained a (hidden_stack init a hs).
Proof.
  revert a. induction hs as [|h hs IH]; intros a; [done|].
  simpl. split_and!; [done | by split | apply IH].
Qed.

Lemma wf_Network_new (a b : Z) (hs : list Z) : wf_Network a b (Network_new init a b hs).
Proof.
  unfold wf_Network, Network_new; simpl. rewrite hidden_stack_widths.
  split_and!; [apply hidden_stack_chained | by split | done | done].
Qed.

Lemma chained_layout (i : nat) (previous : Z) (layers : list Linear) :
  chained previous layers →
  (hidden_state_dict i layers).*1
  = (hidden_state_dict i (hidden_stack init previous (out_features <$> layers))).*1
  ∧ shape <$> (hidden_state_dict i layers).*2
    = shape <$> (hidden_state_dict i (hidden_stack init previous (out_features <$> layers))).*2
  ∧ (λ lin, (in_features lin, out_features lin)) <$> layers
    = (λ lin, (in_features lin, out_features lin))
        <$> hidden_stack init previous (out_features <$> layers).
Proof.
  revert i previous. induction layers as [|lin rest IH]; intros i previous; [done|].
  intros (Hin & [Hw Hb] & Hrest).
  destruct (IH (S i) _ Hrest) as (Hk & Hs & Hf).
  rewrite !fmap_cons. cbn [hidden_stack hidden_state_dict].
  rewrite !fmap_app, Hk, Hs, Hf. simpl. by rewrite Hw, Hb, Hin.
Qed.

Lemma wf_same_layout (a b : Z) (net : Network) :
  wf_Network a b net →
  same_layout (state_dict net) (Network_new init a b (out_features <$> hidden_layers net))
  ∧ features net = features (Network_new init a b (out_features <$> hidden_layers net)).
Proof.
  intros (Hch & [Hw Hb] & Hin & Hout).
  destruct (chained_layout 0 _ _ Hch) as (Hk & Hs & Hf).
  unfold same_layout, features, state_dict, Network_new; simpl.
  rewrite !fmap_app, Hk, Hs, Hf. simpl. by rewrite Hw, Hb, Hin, Hout.
Qed.

(** X2: for every live network from 784 inputs to 10 outputs, with any
    hidden layers (at least one) and any parameter values, saving it with
    cell 12 and
    loading the file with cell 14 returns a second instance, at
    another location, whose contents equal those of the saved network; the
    saved network is left as it was. *)
Theorem save_load_roundtrip (model : loc) (net : Network) (w : World) :
  heap w !! model = Some net →
  wf_Network 784 10 net →
  hidden_layers net ≠ [] →
  ∃ model' w',
    (save_checkpoint model ;;; cell_14 init failed_load) w = (Ok model', w')
    ∧ model' ≠ model
    ∧ heap w' !! model' = Some net
    ∧ heap w' !! model = Some net.
Proof.
  intros H Hwf _. destruct (wf_same_layout _ _ _ Hwf) as [Hlay Hfeat].
  set (hs := out_features <$> hidden_layers net) in *.
  pose proof (serialize_holds_record 784 10 hs (state_dict net) "checkpoint.pth" w) as Hrec.
  set (w1 := (serialize 784 10 hs (state_dict net) "checkpoint.pth" w).2) in *.
  assert (Hsave : save_checkpoint model w = (Ok (), w1))
    by (by rewrite (save_checkpoint_serialize _ _ _ H)).
  eexists _, _. split_and!.
  - rewrite (bind_Ok _ _ _ _ _ Hsave). unfold cell_14.
    apply (load_checkpoint_success init failed_load _ _ _ _ _ _ Hrec Hlay).
  - apply (fresh_ne (heap w)). by exists net.
  - simpl. rewrite lookup_insert_eq. f_equal. apply Network_ext.
    + by apply Network_load_same_layout.
    + by rewrite Network_load_features.
  - simpl. rewrite lookup_insert_ne; [done|].
    apply (fresh_ne (heap w)). by exists net.
Qed.

(** ** Entries of a state dict *)

Lemma output_weight_elem (net : Network) :
  ("output.weight", weight (output net)) ∈ state_dict net.
Proof. unfold state_dict. apply elem_of_app. right. apply elem_of_cons. by left. Qed.

Lemma output_bias_elem (net : Network) :
  ("output.bias", bias (output net)) ∈ state_dict net.
Proof.
  unfold state_dict. apply elem_of_app. right.
  apply elem_of_cons. right. apply elem_of_cons. by left.
Qed.

Lemma first_weight_elem (net : Network) (lin : Linear) (rest : list Linear) :
  hidden_layers net = lin :: rest →
  (hidden_prefix 0 +:+ "weight", weight lin) ∈ state_dict net.
Proof.
  intros H. unfold state_dict. rewrite H. apply elem_of_app. left.
  apply elem_of_cons. by left.
Qed.

Lemma state_dict_lookup_elem (net : Network) (key : string) (t : Tensor) :
  (key, t) ∈ state_dict net → sd_lookup key (state_dict net) = Some t.
Proof. apply sd_lookup_NoDup, state_dict_NoDup. Qed.

Lemma state_dict_key_form (net : Network) (key : string) :
  key ∈ (state_dict net).*1 →
  (∃ j k, key = hidden_prefix j +:+ k) ∨ key = "output.weight" ∨ key = "output.bias".
Proof.
  unfold state_dict. rewrite fmap_app, elem_of_app. intros [H | H].
  - left. apply hidden_state_dict_keys in H as (j & _ & [-> | ->]); eauto.
  - right. simpl in H. rewrite !elem_of_cons, elem_of_nil in H.
    destruct H as [H | [H | []]]; auto.
Qed.

Lemma load_errors_mismatch_elem (sd : OrderedDict) (net : Network)
    (key : string) (param input_param : Tensor) :
  (key, param) ∈ state_dict net →
  sd_lookup key sd = Some input_param →
  shape input_param ≠ shape param →
  SizeMismatch key (shape input_param) (shape param) ∈ load_errors sd net.
Proof.
  intros Hparam Hl Hne. unfold load_errors. apply elem_of_app. left.
  apply list_elem_of_bind. exists (key, param). split; [|done].
  rewrite (check_param_mismatch _ _ _ _ Hl Hne). apply elem_of_cons. by left.
Qed.

(** ** Cell 12 and [load_checkpoint] on networks of other sizes *)

(** X3: cell 12 writes 784 and 10 whatever the network.  For every live
    network with a hidden layer whose input size is not 784 or whose output
    size is not 10, cell 14 raises on the file that cell 12 has just written
    for it, with a size mismatch among the messages; the saved network is
    left as it was. *)
Theorem save_load_other_sizes (model : loc) (net : Network) (w : World) (a b : Z) :
  heap w !! model = Some net →
  wf_Network a b net →
  hidden_layers net ≠ [] →
  a ≠ 784 ∨ b ≠ 10 →
  ∃ error_msgs w',
    (save_checkpoint model ;;; cell_14 init failed_load) w
    = (Raise (RuntimeError error_msgs), w')
    ∧ holds_record w' "checkpoint.pth" 784 10 (out_features <$> hidden_layers net)
        (state_dict net)
    ∧ (∃ key s1 s2, SizeMismatch key s1 s2 ∈ error_msgs)
    ∧ heap w' !! model = Some net.
Proof.
  intros H (Hch & [Hw Hb] & Hin & Hout) _ Hsize.
  set (hs := out_features <$> hidden_layers net) in *.
  pose proof (serialize_holds_record 784 10 hs (state_dict net) "checkpoint.pth" w) as Hrec.
  set (w1 := (serialize 784 10 hs (state_dict net) "checkpoint.pth" w).2) in *.
  assert (Hsave : save_checkpoint model w = (Ok (), w1))
    by (by rewrite (save_checkpoint_serialize _ _ _ H)).
  assert (Herr : ∃ key s1 s2,
    SizeMismatch key s1 s2 ∈ load_errors (state_dict net) (Network_new init 784 10 hs)).
  { destruct (decide (b = 10)) as [->|Hb10].
    - destruct Hsize as [Ha|]; [|done].
      destruct (hidden_layers net) as [|lin rest] eqn:Hhid.
      + exists "output.weight". eexists _, _.
        apply (load_errors_mismatch_elem _ _ _ _ _ (output_weight_elem _)
                 (state_dict_lookup_elem _ _ _ (output_weight_elem net))).
        rewrite Hw, Hin, Hout. simpl. congruence.
      + destruct Hch as (Hin0 & [Hw0 _] & _).
        exists (hidden_prefix 0 +:+ "weight"). eexists _, _.
        apply (load_errors_mismatch_elem _ (Network_new init 784 10 hs) _
                 (weight (nn_Linear init 784 (out_features lin))) (weight lin)).
        * by apply (first_weight_elem _ _ (hidden_stack init (out_features lin)
                                              (out_features <$> rest))).
        * apply state_dict_lookup_elem. by eapply first_weight_elem.
        * rewrite Hw0, Hin0. simpl. congruence.
    - exists "output.bias". eexists _, _.
      apply (load_errors_mismatch_elem _ _ _ _ _ (output_bias_elem _)
               (state_dict_lookup_elem _ _ _ (output_bias_elem net))).
      rewrite Hb, Hout. simpl. congruence. }
  rewrite (bind_Ok _ _ _ _ _ Hsave). unfold cell_14.
  rewrite (load_checkpoint_on_record init failed_load _ _ _ _ _ _ Hrec), load_into_fresh.
  destruct (load_errors (state_dict net) (Network_new init 784 10 hs)) as [|msg msgs].
  - destruct Herr as (? & ? & ? & []%elem_of_nil).
  - eexists _, _. split; [done|]. split; [exact Hrec|]. split; [exact Herr|].
    simpl. rewrite lookup_insert_ne; [done|]. apply (fresh_ne (heap w)). by exists net.
Qed.

(** ** The two kinds of file under one name *)

Lemma getitem_ordered_None (sd : OrderedDict) (key : string) :
  sd_lookup key sd = None → pure (getitem (PyOrderedDict sd) key) (Raise (KeyError key)).
Proof. intros H w. unfold getitem. by rewrite H. Qed.

Lemma getitem_dict_None (d : gmap string PyVal) (key : string) :
  d !! key = None → pure (getitem (PyDict d) key) (Raise (KeyError key)).
Proof. intros H w. unfold getitem. by rewrite H. Qed.

Lemma getitem_dict_Some (d : gmap string PyVal) (key : string) (v : PyVal) :
  d !! key = Some v → pure (getitem (PyDict d) key) (Ok v).
Proof. intros H w. unfold getitem. by rewrite H. Qed.

(** X4: the file that cell 7 writes holds the bare state dict, not a
    record.  On it [load_checkpoint] raises [KeyError] for [input_size], for
    every model, before any network is built: nothing but the file written
    by cell 7 differs from the world before. *)
Theorem load_checkpoint_on_state_dict_file (model : loc) (net : Network) (w : World) :
  heap w !! model = Some net →
  (cell_7 model ;;; load_checkpoint init failed_load "checkpoint.pth") w
  = (Raise (KeyError "input_size"),
     mkWorld (heap w) (<["checkpoint.pth" := PyOrderedDict (state_dict net)]> (fs w))).
Proof.
  intros H.
  set (w1 := mkWorld (heap w) (<["checkpoint.pth" := PyOrderedDict (state_dict net)]> (fs w))).
  assert (Hsave : cell_7 model w = (Ok (), w1)).
  { unfold cell_7, bind, deref. by rewrite H. }
  assert (Hnone : sd_lookup "input_size" (state_dict net) = None).
  { apply sd_lookup_None. intros Hin.
    apply state_dict_key_form in Hin as [(j & k & Heq) | [Heq | Heq]]; discriminate Heq. }
  rewrite (bind_Ok _ _ _ _ _ Hsave). unfold load_checkpoint.
  rewrite bind_torch_load.
  assert (Hfile : fs w1 !! "checkpoint.pth" = Some (PyOrderedDict (state_dict net)))
    by apply lookup_insert_eq.
  rewrite Hfile. by rewrite (bind_pure _ _ (getitem_ordered_None _ _ Hnone)).
Qed.

(** ** Cell 11 and what cell 12 saves after it *)

Lemma hidden_load_widths (i : nat) (sd : OrderedDict) (layers : list Linear) :
  out_features <$> hidden_load i sd layers = out_features <$> layers.
Proof.
  revert i. induction layers as [|lin rest IH]; intros i; [done|].
  simpl. by rewrite IH.
Qed.

Lemma save_checkpoint_record (model : loc) (net : Network) (w : World) :
  heap w !! model = Some net →
  save_checkpoint model w
  = (Ok (),
     mkWorld (heap w)
       (<["checkpoint.pth" :=
            PyDict (checkpoint_record 784 10 (out_features <$> hidden_layers net)
                      (state_dict net))]> (fs w))).
Proof. intros H. by rewrite (save_checkpoint_serialize _ _ _ H). Qed.

(** X5: cell 11 binds [model] to the network it has just built before it
    tries the load, so the binding stands whether the load raises or not,
    and the network that was live before is still there, untouched but no
    longer called [model].  Provided a failed load leaves the widths of its
    target alone, what cell 12 then saves is a record of the new network,
    with hidden widths 400, 200 and 100, whatever [state_dict] was. *)
Theorem cell_11_rebinds_model (state_dict0 : PyVal) (w : World) :
  keeps_widths failed_load →
  ∃ model r w1 net' w2,
    cell_11 init failed_load state_dict0 w = (Some model, (r, w1))
    ∧ (model ∉ dom (heap w))
    ∧ heap_preserved w w1
    ∧ heap w1 !! model = Some net'
    ∧ save_checkpoint model w1 = (Ok (), w2)
    ∧ fs w2 !! "checkpoint.pth"
      = Some (PyDict (checkpoint_record 784 10 [400; 200; 100] (state_dict net'))).
Proof.
  intros Hkeep. unfold cell_11, fc_model_Network, alloc.
  set (l := fresh (dom (heap w))).
  set (N := Network_new init 784 10 [400; 200; 100]).
  assert (Hfresh : l ∉ dom (heap w)) by apply is_fresh.
  assert (Hpres : ∀ net, heap_preserved w (mkWorld (<[l := net]> (heap w)) (fs w))).
  { intros net. apply fresh_preserved. }
  assert (Hsaved : ∀ net w1,
    heap w1 !! l = Some net →
    out_features <$> hidden_layers net = [400; 200; 100] →
    ∃ w2, save_checkpoint l w1 = (Ok (), w2)
          ∧ fs w2 !! "checkpoint.pth"
            = Some (PyDict (checkpoint_record 784 10 [400; 200; 100] (state_dict net)))).
  { intros net w1 Hl Hwidths. eexists. rewrite (save_checkpoint_record _ _ _ Hl).
    split; [done|]. simpl. rewrite Hwidths. apply lookup_insert_eq. }
  unfold cell_9.
  destruct (as_state_dict_pure state_dict0) as [r Hr].
  rewrite (bind_pure _ _ Hr). destruct r as [sd|e].
  - unfold load_state_dict. simpl. rewrite lookup_insert_eq.
    destruct (load_errors sd N) as [|msg msgs]; rewrite insert_insert_eq.
    + destruct (Hsaved (Network_load sd N) (mkWorld (<[l := Network_load sd N]> (heap w)) (fs w)))
        as (w2 & Hs & Hf); [apply lookup_insert_eq | apply hidden_load_widths |].
      eexists l, _, _, _, w2. split_and!; try done. apply lookup_insert_eq.
    + destruct (Hsaved (failed_load N sd) (mkWorld (<[l := failed_load N sd]> (heap w)) (fs w)))
        as (w2 & Hs & Hf); [apply lookup_insert_eq | by rewrite Hkeep |].
      eexists l, _, _, _, w2. split_and!; try done. apply lookup_insert_eq.
  - destruct (Hsaved N (mkWorld (<[l := N]> (heap w)) (fs w)))
      as (w2 & Hs & Hf); [apply lookup_insert_eq | done |].
    eexists l, _, _, _, w2. split_and!; try done. apply lookup_insert_eq.
Qed.

(** ** Files that lack an entry *)

(** X6: [load_checkpoint] raises [FileNotFoundError] when there is no file,
    and on a record that lacks an entry it raises [KeyError] for the first
    one missing in the order [input_size], [output_size], [hidden_layers],
    [state_dict].  For the three descriptor entries this happens before
    anything is built and the world is as before; a missing [state_dict] is
    found only after the network has been built from the descriptor (one
    of positive sizes with a hidden layer). *)
Theorem load_checkpoint_missing_entry (filepath : string) (w : World) :
  (fs w !! filepath = None →
   load_checkpoint init failed_load filepath w = (Raise (FileNotFoundError filepath), w))
  ∧ ∀ d : gmap string PyVal,
      fs w !! filepath = Some (PyDict d) →
      (d !! "input_size" = None →
       load_checkpoint init failed_load filepath w = (Raise (KeyError "input_size"), w))
      ∧ (is_Some (d !! "input_size") →
         d !! "output_size" = None →
         load_checkpoint init failed_load filepath w = (Raise (KeyError "output_size"), w))
      ∧ (is_Some (d !! "input_size") →
         is_Some (d !! "output_size") →
         d !! "hidden_layers" = None →
         load_checkpoint init failed_load filepath w = (Raise (KeyError "hidden_layers"), w))
      ∧ (∀ (a b : Z) (hs : list Z),
           constructible a b hs →
           d !! "input_size" = Some (PyInt a) →
           d !! "output_size" = Some (PyInt b) →
           d !! "hidden_layers" = Some (PyList hs) →
           d !! "state_dict" = None →
           load_checkpoint init failed_load filepath w
           = (Raise (KeyError "state_dict"),
              mkWorld (<[fresh (dom (heap w)) := Network_new init a b hs]> (heap w)) (fs w))).
Proof.
  split.
  - intros Hf. unfold load_checkpoint. by rewrite bind_torch_load, Hf.
  - intros d Hf. unfold load_checkpoint. rewrite bind_torch_load, Hf. split_and!.
    + intros H1. by rewrite (bind_pure _ _ (getitem_dict_None _ _ H1)).
    + intros [v1 H1] H2.
      rewrite (bind_pure _ _ (getitem_dict_Some _ _ _ H1)).
      by rewrite (bind_pure _ _ (getitem_dict_None _ _ H2)).
    + intros [v1 H1] [v2 H2] H3.
      rewrite (bind_pure _ _ (getitem_dict_Some _ _ _ H1)).
      rewrite (bind_pure _ _ (getitem_dict_Some _ _ _ H2)).
      by rewrite (bind_pure _ _ (getitem_dict_None _ _ H3)).
    + intros a b hs _ H1 H2 H3 H4.
      rewrite (bind_pure _ _ (getitem_dict_Some _ _ _ H1)).
      rewrite (bind_pure _ _ (getitem_dict_Some _ _ _ H2)).
      rewrite (bind_pure _ _ (getitem_dict_Some _ _ _ H3)).
      unfold as_int, as_list. unfold bind at 1 2 3. unfold ret at 1 2 3.
      rewrite bind_Network.
      by rewrite (bind_pure _ _ (getitem_dict_None _ _ H4)).
Qed.

(** ** When a load succeeds *)

Lemma bind_nil_Forall {A B} (f : A → list B) (l : list A) :
  l ≫= f = [] ↔ Forall (λ x, f x = []) l.
Proof.
  induction l as [|x l IH].
  - split; [constructor | done].
  - rewrite bind_cons, Forall_cons, <- IH. split.
    + by intros [? ?]%app_eq_nil.
    + intros [-> ->]. done.
Qed.

Lemma filter_nil_Forall (P : string → Prop) `{∀ x, Decision (P x)} (l : list string) :
  filter P l = [] ↔ Forall (λ x, ¬ P x) l.
Proof.
  induction l as [|x l IH].
  - split; [constructor | done].
  - rewrite Forall_cons, <- IH. destruct (decide (P x)) as [HP|HP].
    + rewrite filter_cons_True by done. split; [done | by intros [? _]].
    + rewrite filter_cons_False by done. split; [done | by intros [_ ?]].
Qed.

Lemma fmap_nil_iff {A B} (f : A → B) (l : list A) : f <$> l = [] ↔ l = [].
Proof. split; [apply fmap_nil_inv | by intros ->]. Qed.

Lemma check_param_nil (sd : OrderedDict) (key : string) (param : Tensor) :
  check_param sd (key, param) = []
  ↔ ∃ t, sd_lookup key sd = Some t ∧ shape t = shape param.
Proof.
  unfold check_param. destruct (sd_lookup key sd) as [t|].
  - destruct (decide (shape t = shape param)) as [Heq|Hne].
    + split; [by exists t | done].
    + split; [done | by intros (t' & [= <-] & ?)].
  - split; [done | by intros (t' & ? & _)].
Qed.

Lemma load_errors_nil_iff (sd : OrderedDict) (net : Network) :
  load_errors sd net = []
  ↔ (∀ key param, (key, param) ∈ state_dict net →
       ∃ t, sd_lookup key sd = Some t ∧ shape t = shape param)
    ∧ (∀ key, key ∈ sd.*1 → key ∈ (state_dict net).*1).
Proof.
  unfold load_errors, unexpected_keys.
  rewrite app_nil, bind_nil_Forall, fmap_nil_iff, filter_nil_Forall, !Forall_forall.
  split; intros [H1 H2]; split.
  - intros key param Hin. by apply check_param_nil, (H1 (key, param)).
  - intros key Hin. by apply dec_stable, H2.
  - intros [key param] Hin. by apply check_param_nil, H1.
  - intros key Hin Hn. by apply Hn, H2.
Qed.

Lemma sd_lookup_copy (sd : OrderedDict) (key : string) (l : OrderedDict) :
  sd_lookup key ((λ e, (e.1, copy_ e.1 sd e.2)) <$> l) = copy_ key sd <$> sd_lookup key l.
Proof.
  induction l as [|[k t] l IH]; [done|]. simpl.
  destruct (decide (k = key)) as [->|Hne]; [done | exact IH].
Qed.

(** X7: [load_state_dict] succeeds exactly when the bundle has an array of
    the right shape under the key of every parameter of the model and no
    key that the model lacks; the order of the entries plays no part.  After
    a load that succeeded the state dict of the model and the bundle hold
    the same array under every key, the widths of the layers are as before,
    and nothing but the target has changed. *)
Theorem load_state_dict_succeeds_iff (self : loc) (net : Network) (sd : OrderedDict)
    (w : World) :
  heap w !! self = Some net →
  ((∃ w', load_state_dict failed_load self sd w = (Ok (), w'))
   ↔ (∀ key param, (key, param) ∈ state_dict net →
        ∃ t, sd_lookup key sd = Some t ∧ shape t = shape param)
     ∧ (∀ key, key ∈ sd.*1 → key ∈ (state_dict net).*1))
  ∧ ∀ w',
      load_state_dict failed_load self sd w = (Ok (), w') →
      ∃ net',
        w' = mkWorld (<[self := net']> (heap w)) (fs w)
        ∧ features net' = features net
        ∧ ∀ key, sd_lookup key (state_dict net') = sd_lookup key sd.
Proof.
  intros Hself. rewrite <- load_errors_nil_iff. unfold load_state_dict. rewrite Hself.
  split.
  - destruct (load_errors sd net) as [|msg msgs]; split; try done.
    + by eexists.
    + by intros [w' ?].
  - intros w' Hrun. destruct (load_errors sd net) as [|msg msgs] eqn:Herr; [|done].
    injection Hrun as <-. exists (Network_load sd net).
    split; [done|]. split; [apply Network_load_features|].
    apply load_errors_nil_iff in Herr as [Hall Hno].
    intros key. rewrite Network_load_state_dict, sd_lookup_copy.
    destruct (sd_lookup key (state_dict net)) as [param|] eqn:Hl; simpl.
    + destruct (Hall key param (sd_lookup_Some_elem _ _ _ Hl)) as (t & Ht & Hshape).
      rewrite Ht. unfold copy_. rewrite Ht, <- Hshape. by destruct t.
    + apply sd_lookup_None in Hl. symmetry. apply sd_lookup_None. auto.
Qed.

(** ** Loading more than once, and saving what was loaded *)

(** X8: two calls of [load_checkpoint] on the same file, one that holds a
    record whose bundle has the layout of its descriptor, give two separate
    instances, at different locations, with equal contents; the models that
    were live before are as they were. *)
Theorem load_checkpoint_twice (filepath : string) (w : World)
    (a b : Z) (hs : list Z) (sd : OrderedDict) :
  constructible a b hs →
  holds_record w filepath a b hs sd →
  same_layout sd (Network_new init a b hs) →
  ∃ m1 m2 net w',
    (m1 <- load_checkpoint init failed_load filepath ;;
     m2 <- load_checkpoint init failed_load filepath ;;
     ret (m1, m2)) w
    = (Ok (m1, m2), w')
    ∧ m1 ≠ m2
    ∧ heap w' !! m1 = Some net
    ∧ heap w' !! m2 = Some net
    ∧ state_dict net = sd
    ∧ heap_preserved w w'.
Proof.
  intros _ Hrec Hlay.
  set (net := Network_load sd (Network_new init a b hs)).
  set (l1 := fresh (dom (heap w))).
  set (w1 := mkWorld (<[l1 := net]> (heap w)) (fs w)).
  set (l2 := fresh (dom (heap w1))).
  assert (Hrec1 : holds_record w1 filepath a b hs sd) by exact Hrec.
  assert (Hne : l2 ≠ l1).
  { apply (fresh_ne (heap w1)). exists net. apply lookup_insert_eq. }
  exists l1, l2, net, (mkWorld (<[l2 := net]> (heap w1)) (fs w1)). split_and!.
  - rewrite (bind_Ok _ _ _ _ _ (load_checkpoint_success init failed_load _ _ _ _ _ _ Hrec Hlay)).
    by rewrite (bind_Ok _ _ _ _ _ (load_checkpoint_success init failed_load _ _ _ _ _ _
                                     Hrec1 Hlay)).
  - done.
  - simpl. rewrite lookup_insert_ne by done. apply lookup_insert_eq.
  - simpl. apply lookup_insert_eq.
  - by apply Network_load_same_layout.
  - intros l Hl. simpl.
    assert (l1 ≠ l).
    { intros Heq. rewrite <- Heq in Hl. exact (is_fresh _ Hl). }
    assert (l2 ≠ l).
    { intros Heq. apply (is_fresh (dom (heap w1))). fold l2. rewrite Heq. simpl.
      rewrite dom_insert_L. set_solver. }
    by rewrite !lookup_insert_ne.
Qed.

(** X9: loading a record for a network from 784 inputs to 10 outputs with
    cell 14 and saving the model just loaded with cell 12 writes back the record that
    was read: the files are as before, and so are the models that were
    live. *)
Theorem load_then_save (hs : list Z) (sd : OrderedDict) (w : World) :
  constructible 784 10 hs →
  fs w !! "checkpoint.pth" = Some (PyDict (checkpoint_record 784 10 hs sd)) →
  same_layout sd (Network_new init 784 10 hs) →
  ∃ w',
    (model <- cell_14 init failed_load ;; save_checkpoint model) w = (Ok (), w')
    ∧ fs w' = fs w
    ∧ heap_preserved w w'.
Proof.
  intros _ Hf Hlay.
  assert (Hrec : holds_record w "checkpoint.pth" 784 10 hs sd).
  { eexists. split; [exact Hf|]. apply checkpoint_record_lookup. }
  set (net := Network_load sd (Network_new init 784 10 hs)).
  set (l := fresh (dom (heap w))).
  set (w1 := mkWorld (<[l := net]> (heap w)) (fs w)).
  assert (Hl : heap w1 !! l = Some net) by apply lookup_insert_eq.
  exists (mkWorld (heap w1) (fs w)). split_and!.
  - unfold cell_14.
    rewrite (bind_Ok _ _ _ _ _ (load_checkpoint_success init failed_load _ _ _ _ _ _ Hrec Hlay)).
    etransitivity; [exact (save_checkpoint_record _ _ _ Hl)|]. f_equal. f_equal.
    unfold net. rewrite (Network_load_same_layout _ _ Hlay).
    unfold Network_load, Network_new; simpl.
    rewrite hidden_load_widths, hidden_stack_widths. by apply insert_id.
  - done.
  - apply fresh_preserved.
Qed.

(** ** The keys of a state dict *)

Lemma hidden_state_dict_length (i : nat) (layers : list Linear) :
  length (hidden_state_dict i layers) = (2 * length layers)%nat.
Proof.
  revert i. induction layers as [|lin rest IH]; intros i; [done|].
  simpl. rewrite IH. lia.
Qed.

(** X10: the state dict of a network has two entries for each layer, the
    output layer included, no two of them under the same key, and looking a
    key up returns exactly the entry stored under it. *)
Theorem state_dict_entries (net : Network) :
  NoDup (state_dict net).*1
  ∧ length (state_dict net) = (2 * (length (hidden_layers net) + 1))%nat
  ∧ ∀ key t, (key, t) ∈ state_dict net ↔ sd_lookup key (state_dict net) = Some t.
Proof.
  split_and!.
  - apply state_dict_NoDup.
  - unfold state_dict. rewrite length_app, hidden_state_dict_length. simpl. lia.
  - intros key t. split.
    + apply sd_lookup_NoDup, state_dict_NoDup.
    + apply sd_lookup_Some_elem.
Qed.

(** ** The bundle that cell 12 persists *)

Lemma hidden_stack_length (a : Z) (hs : list Z) :
  length (hidden_stack init a hs) = length hs.
Proof. revert a. induction hs as [|h hs IH]; intros a; [done|]. simpl. by rewrite IH. Qed.

Lemma hidden_state_dict_keys_length (i : nat) (l1 l2 : list Linear) :
  length l1 = length l2 →
  (hidden_state_dict i l1).*1 = (hidden_state_dict i l2).*1.
Proof.
  revert i l2. induction l1 as [|x l1 IH]; intros i [|y l2] Hlen; try done.
  cbn [hidden_state_dict]. rewrite !fmap_app. f_equal. apply IH.
  simpl in Hlen. lia.
Qed.

(** X11: whatever the live model, its sizes and its parameter values, cell
    12 succeeds, and the bundle it persists has exactly the keys, in order,
    of the network that the descriptor written beside it stands for: no
    bundle with an entry missing, or with one too many, reaches
    [torch.save]. *)
Theorem saved_bundle_complete (model : loc) (net : Network) (w : World) :
  heap w !! model = Some net →
  ∃ w' hs sd,
    save_checkpoint model w = (Ok (), w')
    ∧ fs w' !! "checkpoint.pth" = Some (PyDict (checkpoint_record 784 10 hs sd))
    ∧ sd.*1 = (state_dict (Network_new init 784 10 hs)).*1.
Proof.
  intros H. eexists _, (out_features <$> hidden_layers net), (state_dict net).
  split; [exact (save_checkpoint_record _ _ _ H)|]. split; [apply lookup_insert_eq|].
  unfold state_dict, Network_new; simpl. rewrite !fmap_app. f_equal.
  apply hidden_state_dict_keys_length.
  by rewrite hidden_stack_length, length_fmap.
Qed.

End Notebook.

(** ** Instances *)

Lemma state_dict_save_load_self_witness :
  heap small_world !! 1%positive = Some small_net
  ∧ (cell_7 1%positive ;;; (state_dict <- cell_8 ;; cell_9 keep 1%positive state_dict))
      small_world
    = (Ok (),
       mkWorld (heap small_world)
         (<["checkpoint.pth" := PyOrderedDict (state_dict small_net)]> (fs small_world))).
Proof.
  split; [reflexivity|].
  exact (state_dict_save_load_self keep 1%positive small_net small_world eq_refl).
Defined.

Lemma save_load_roundtrip_witness :
  heap mnist_world !! 1%positive = Some mnist_net
  ∧ wf_Network 784 10 mnist_net
  ∧ hidden_layers mnist_net ≠ []
  ∧ ∃ model' w',
      (save_checkpoint 1%positive ;;; cell_14 zeros keep) mnist_world = (Ok model', w')
      ∧ model' ≠ 1%positive
      ∧ heap w' !! model' = Some mnist_net
      ∧ heap w' !! 1%positive = Some mnist_net.
Proof.
  assert (Hhid : hidden_layers mnist_net ≠ []) by discriminate.
  split; [reflexivity|]. split; [exact (wf_Network_new zeros 784 10 [2])|].
  split; [exact Hhid|].
  exact (save_load_roundtrip zeros keep 1%positive mnist_net mnist_world eq_refl
           (wf_Network_new zeros 784 10 [2]) Hhid).
Defined.

Lemma small_net_wf : wf_Network 2 1 small_net.
Proof. unfold wf_Network, wf_Linear; simpl. unfold wf_Linear; simpl. by split_and!. Defined.

Lemma save_load_other_sizes_witness :
  heap small_world !! 1%positive = Some small_net
  ∧ wf_Network 2 1 small_net
  ∧ hidden_layers small_net ≠ []
  ∧ (2 ≠ 784 ∨ 1 ≠ 10)
  ∧ ∃ error_msgs w',
      (save_checkpoint 1%positive ;;; cell_14 zeros keep) small_world
      = (Raise (RuntimeError error_msgs), w')
      ∧ holds_record w' "checkpoint.pth" 784 10 [3] (state_dict small_net)
      ∧ (∃ key s1 s2, SizeMismatch key s1 s2 ∈ error_msgs)
      ∧ heap w' !! 1%positive = Some small_net.
Proof.
  assert (Hsize : 2 ≠ 784 ∨ 1 ≠ 10) by (left; lia).
  assert (Hhid : hidden_layers small_net ≠ []) by discriminate.
  split; [reflexivity|]. split; [exact small_net_wf|]. split; [exact Hhid|].
  split; [exact Hsize|].
  exact (save_load_other_sizes zeros keep 1%positive small_net small_world 2 1
           eq_refl small_net_wf Hhid Hsize).
Defined.

Lemma load_checkpoint_on_state_dict_file_witness :
  heap small_world !! 1%positive = Some small_net
  ∧ ((cell_7 1%positive ;;; load_checkpoint zeros keep "checkpoint.pth") small_world).1
    = Raise (KeyError "input_size").
Proof.
  split; [reflexivity|].
  by rewrite (load_checkpoint_on_state_dict_file zeros keep 1%positive small_net small_world
                eq_refl).
Defined.

Lemma keep_keeps_widths : keeps_widths keep.
Proof. intros net sd. reflexivity. Defined.

Lemma cell_11_rebinds_model_witness :
  keeps_widths keep
  ∧ ∃ model r w1 net' w2,
      cell_11 no_data keep (PyOrderedDict (state_dict small_net)) small_world
      = (Some model, (r, w1))
      ∧ (model ∉ dom (heap small_world))
      ∧ heap_preserved small_world w1
      ∧ heap w1 !! model = Some net'
      ∧ save_checkpoint model w1 = (Ok (), w2)
      ∧ fs w2 !! "checkpoint.pth"
        = Some (PyDict (checkpoint_record 784 10 [400; 200; 100] (state_dict net'))).
Proof.
  split; [exact keep_keeps_widths|].
  exact (cell_11_rebinds_model no_data keep (PyOrderedDict (state_dict small_net))
           small_world keep_keeps_widths).
Defined.

Lemma constructible_2_1_3 : constructible 2 1 [3].
Proof.
  split; [discriminate|]. split; [lia|]. split; [lia|].
  constructor; [lia | constructor].
Defined.

Lemma constructible_784_10_2 : constructible 784 10 [2].
Proof.
  split; [discriminate|]. split; [lia|]. split; [lia|].
  constructor; [lia | constructor].
Defined.

Lemma load_checkpoint_missing_entry_witness :
  constructible 2 1 [3]
  ∧ fs descriptor_only_world !! "checkpoint.pth" = Some (PyDict descriptor_only)
  ∧ descriptor_only !! "state_dict" = None
  ∧ load_checkpoint zeros keep "checkpoint.pth" descriptor_only_world
    = (Raise (KeyError "state_dict"),
       mkWorld (<[fresh (dom (heap descriptor_only_world)) := Network_new zeros 2 1 [3]]>
                  (heap descriptor_only_world))
               (fs descriptor_only_world)).
Proof.
  split; [exact constructible_2_1_3|]. split; [reflexivity|]. split; [reflexivity|].
  destruct (proj2 (load_checkpoint_missing_entry zeros keep "checkpoint.pth"
                     descriptor_only_world) descriptor_only eq_refl)
    as (_ & _ & _ & Hlast).
  exact (Hlast 2 1 [3] constructible_2_1_3 eq_refl eq_refl eq_refl eq_refl).
Defined.

Lemma load_shuffled_bundle :
  load_state_dict keep 1%positive shuffled_bundle small_world
  = (Ok (), (load_state_dict keep 1%positive shuffled_bundle small_world).2).
Proof. vm_compute. reflexivity. Defined.

Lemma load_state_dict_succeeds_iff_witness :
  heap small_world !! 1%positive = Some small_net
  ∧ ∃ net',
      heap (load_state_dict keep 1%positive shuffled_bundle small_world).2 !! 1%positive
      = Some net'
      ∧ features net' = features small_net
      ∧ sd_lookup "output.bias" (state_dict net') = Some (mkTensor [1] [50]).
Proof.
  split; [reflexivity|].
  destruct (proj2 (load_state_dict_succeeds_iff keep 1%positive small_net shuffled_bundle
                     small_world eq_refl) _ load_shuffled_bundle)
    as (net' & Hw & Hfeat & Hlook).
  exists net'. rewrite Hw. split; [apply lookup_insert_eq|]. split; [exact Hfeat|].
  rewrite Hlook. reflexivity.
Defined.

Lemma load_checkpoint_twice_witness :
  constructible 2 1 [3]
  ∧ holds_record saved_world "checkpoint.pth" 2 1 [3] (state_dict small_net)
  ∧ same_layout (state_dict small_net) (Network_new zeros 2 1 [3])
  ∧ ∃ m1 m2 net w',
      (m1 <- load_checkpoint zeros keep "checkpoint.pth" ;;
       m2 <- load_checkpoint zeros keep "checkpoint.pth" ;;
       ret (m1, m2)) saved_world
      = (Ok (m1, m2), w')
      ∧ m1 ≠ m2
      ∧ heap w' !! m1 = Some net
      ∧ heap w' !! m2 = Some net
      ∧ state_dict net = state_dict small_net
      ∧ heap_preserved saved_world w'.
Proof.
  split; [exact constructible_2_1_3|].
  split; [exact saved_world_holds_record|]. split; [exact small_net_layout|].
  exact (load_checkpoint_twice zeros keep "checkpoint.pth" saved_world 2 1 [3]
           (state_dict small_net) constructible_2_1_3 saved_world_holds_record
           small_net_layout).
Defined.

Lemma mnist_net_layout : same_layout (state_dict mnist_net) (Network_new zeros 784 10 [2]).
Proof. split; reflexivity. Defined.

Lemma load_then_save_witness :
  constructible 784 10 [2]
  ∧ fs mnist_saved_world !! "checkpoint.pth"
  = Some (PyDict (checkpoint_record 784 10 [2] (state_dict mnist_net)))
  ∧ same_layout (state_dict mnist_net) (Network_new zeros 784 10 [2])
  ∧ ∃ w',
      (model <- cell_14 zeros keep ;; save_checkpoint model) mnist_saved_world
      = (Ok (), w')
      ∧ fs w' = fs mnist_saved_world
      ∧ heap_preserved mnist_saved_world w'.
Proof.
  split; [exact constructible_784_10_2|].
  split; [reflexivity|]. split; [exact mnist_net_layout|].
  exact (load_then_save zeros keep [2] (state_dict mnist_net) mnist_saved_world
           constructible_784_10_2 eq_refl mnist_net_layout).
Defined.

Lemma saved_bundle_complete_witness :
  heap small_world !! 1%positive = Some small_net
  ∧ ∃ w' hs sd,
      save_checkpoint 1%positive small_world = (Ok (), w')
      ∧ fs w' !! "checkpoint.pth" = Some (PyDict (checkpoint_record 784 10 hs sd))
      ∧ sd.*1 = (state_dict (Network_new zeros 784 10 hs)).*1.
Proof.
  split; [reflexivity|].
  exact (saved_bundle_complete zeros 1%positive small_net small_world eq_refl).
Defined.
